(** * The feature builder of turo_takehome.py

    A shallow embedding of [clean_data] (turo_takehome.py, lines 8-35) and
    of the pandas operations it calls, followed by the properties of the
    specification that concern it.

    Modelling conventions.
    - A cell of a table is either missing ([NaN]) or a number.  Numbers are
      mathematical integers: the identifiers, the reservation types and the
      counts of the data set are integers, and the prices are taken as
      integral amounts.  Neither the rounding of binary floating point nor
      the 64-bit range of an integer column is modelled.
    - A data frame is column-major, as in pandas: an index (the vehicle
      identifiers, with the name of the index) and an ordered list of named
      columns, the names distinct.  In a frame built by pandas every column
      is as long as the index ([wf_frame]).
    - The pandas operations are modelled as far as clean_data uses them:
      column lookup and assignment with their alignment on the index,
      get_dummies, groupby(level=...).sum() and fillna.
    - [clean_data] updates its second argument in place.  The caller's
      objects live in a store ([heap]) and are passed by reference
      ([loc]); the function runs in a state-and-exception monad, so that a
      partial update survives an exception, as it does in Python. *)

From stdpp Require Import base decidable option list sets numbers strings
  pretty sorting functions.

Set Warnings "-clear-no-such-hyp".

Local Open Scope Z_scope.

(** ** Cells, series, frames *)

Inductive cell : Type :=
  | NaN
  | Int (z : Z).

Global Instance cell_eq_dec : EqDecision cell.
Proof. solve_decision. Defined.

Definition is_nan (c : cell) : bool :=
  match c with NaN => true | Int _ => false end.

(** The number a cell contributes to a sum; pandas skips missing cells. *)
Definition cell_val (c : cell) : Z :=
  match c with NaN => 0 | Int z => z end.

Definition cell_int (c : cell) : option Z :=
  match c with NaN => None | Int z => Some z end.

(** Elementwise subtraction; a missing operand gives a missing result. *)
Definition cell_sub (a b : cell) : cell :=
  match a, b with
  | Int x, Int y => Int (x - y)
  | _, _ => NaN
  end.

Record Series : Type := mkSeries {
  s_index_name : string;
  s_index : list Z;
  s_values : list cell
}.

Record DataFrame : Type := mkDataFrame {
  index_name : string;
  index : list Z;
  columns : list (string * list cell)
}.

(** Every column has one cell per index label. *)
Definition wf_frame (df : DataFrame) : bool :=
  forallb (λ nc, Nat.eqb (length nc.2) (length (index df))) (columns df).

(** The Python exceptions the function can raise. *)
Inductive exn : Type :=
  | KeyError (labels : list string)
  | ValueError (msg : string).

Definition exn_class (e : exn) : string :=
  match e with
  | KeyError _ => "KeyError"
  | ValueError _ => "ValueError"
  end.

(** ** Columns of a frame *)

Fixpoint get_col (cols : list (string * list cell)) (name : string)
  : option (list cell) :=
  match cols with
  | [] => None
  | (n, c) :: cols' => if decide (n = name) then Some c else get_col cols' name
  end.

(** Assigning a column replaces it where it stands, or appends it. *)
Fixpoint set_col (name : string) (v : list cell)
  (cols : list (string * list cell)) : list (string * list cell) :=
  match cols with
  | [] => [(name, v)]
  | (n, c) :: cols' =>
      if decide (n = name) then (n, v) :: cols'
      else (n, c) :: set_col name v cols'
  end.

Definition col_names (df : DataFrame) : list string := (columns df).*1.

(** The cell of column [name] at row position [i]. *)
Definition cell_at (df : DataFrame) (name : string) (i : nat) : option cell :=
  c ← get_col (columns df) name; c !! i.

(** ** The pandas operations used by clean_data *)

(** [df[name]] *)
Definition getitem (df : DataFrame) (name : string) : exn + Series :=
  match get_col (columns df) name with
  | Some c => inr (mkSeries (index_name df) (index df) c)
  | None => inl (KeyError [name])
  end.

(** [df[names]]: every label must be a column, else KeyError names the
    labels that are not. *)
Definition getitem_list (df : DataFrame) (names : list string)
  : exn + DataFrame :=
  match filter (λ n, get_col (columns df) n = None) names with
  | [] =>
      inr (mkDataFrame (index_name df) (index df)
             ((λ n, (n, default [] (get_col (columns df) n))) <$> names))
  | missing => inl (KeyError missing)
  end.

(** The distinct values of a column, sorted, missing cells left out
    (dummy_na=False). *)
Definition levels (vals : list cell) : list Z :=
  merge_sort Z.le (remove_dups (omap cell_int vals)).

(** How a level prints in a column name.  A numeric column that has a
    missing cell is held as float64, and its levels print with a
    fractional part: 1.0, 2.0 (very large magnitudes print in exponent
    form, which is not modelled). *)
Definition level_label (as_float : bool) (v : Z) : string :=
  if as_float then pretty v +:+ ".0" else pretty v.

Definition indicator (v : Z) (c : cell) : cell :=
  if decide (c = Int v) then Int 1 else Int 0.

(** [pd.get_dummies(s, prefix=prefix)]: one 0/1 column per level that
    occurs in [s], named prefix_level, on the index of [s]. *)
Definition get_dummies (s : Series) (prefix : string) : DataFrame :=
  let vals := s_values s in
  let as_float := existsb is_nan vals in
  mkDataFrame (s_index_name s) (s_index s)
    ((λ v, (prefix +:+ "_" +:+ level_label as_float v, indicator v <$> vals))
       <$> levels vals).

(** [df[name] = c] for a scalar [c]: broadcast over the index. *)
Definition setitem_scalar (df : DataFrame) (name : string) (c : cell)
  : DataFrame :=
  mkDataFrame (index_name df) (index df)
    (set_col name (replicate (length (index df)) c) (columns df)).

(** The cells of [col] at the rows labelled [k]. *)
Definition group_rows (k : Z) (idx : list Z) (col : list cell) : list cell :=
  (filter (λ p, p.1 = k) (zip idx col)).*2.

Definition col_sum (col : list cell) : Z :=
  foldr (λ c acc, cell_val c + acc) 0 col.

(** The group keys: the distinct index labels, sorted. *)
Definition group_keys (idx : list Z) : list Z :=
  merge_sort Z.le (remove_dups idx).

(** [df.groupby(level=level).sum()]: one row per distinct index label, in
    sorted order, each column summed over the rows of that label. *)
Definition groupby_sum (df : DataFrame) (level : string) : exn + DataFrame :=
  if decide (index_name df = level) then
    let keys := group_keys (index df) in
    inr (mkDataFrame level keys
           ((λ nc, (nc.1, (λ k, Int (col_sum (group_rows k (index df) nc.2)))
                            <$> keys)) <$> columns df))
  else inl (ValueError "level name is not the name of the index").

(** The value a series holds at label [k], missing when [k] is not in its
    index. *)
Fixpoint lookup_label (k : Z) (idx : list Z) (vals : list cell) : cell :=
  match idx, vals with
  | i :: idx', v :: vals' =>
      if decide (i = k) then v else lookup_label k idx' vals'
  | _, _ => NaN
  end.

Definition reindex (s : Series) (labels : list Z) : list cell :=
  (λ k, lookup_label k (s_index s) (s_values s)) <$> labels.

(** DataFrame._ensure_valid_index: a frame whose index is empty takes the
    index of the series assigned to it; the columns it already has are
    filled with missing cells on the new rows. *)
Definition ensure_valid_index (df : DataFrame) (s : Series) : DataFrame :=
  match index df with
  | [] =>
      mkDataFrame (s_index_name s) (s_index s)
        ((λ nc, (nc.1, replicate (length (s_index s)) NaN)) <$> columns df)
  | _ :: _ => df
  end.

(** DataFrame._sanitize_column: the values of the series when it has the
    index of the frame, else the series aligned on the index of the frame,
    which pandas refuses when the labels of the series repeat. *)
Definition sanitize_column (df : DataFrame) (s : Series) : exn + list cell :=
  if decide (s_index s = index df ∨ index df = []) then inr (s_values s)
  else if decide (NoDup (s_index s)) then inr (reindex s (index df))
  else inl (ValueError "cannot reindex from a duplicate axis").

(** [df[name] = s] for a series [s]. *)
Definition setitem_series (df : DataFrame) (name : string) (s : Series)
  : exn + DataFrame :=
  let df := ensure_valid_index df s in
  match sanitize_column df s with
  | inr v => inr (mkDataFrame (index_name df) (index df)
                    (set_col name v (columns df)))
  | inl e => inl e
  end.

(** [df[keys] = value] for a frame [value]: the columns of [value] are
    assigned one by one, paired with [keys] by position. *)
Fixpoint setitem_columns (df : DataFrame) (iname : string) (idx : list Z)
  (kcs : list (string * (string * list cell))) : exn + DataFrame :=
  match kcs with
  | [] => inr df
  | (k, (_, c)) :: kcs' =>
      match setitem_series df k (mkSeries iname idx c) with
      | inr df' => setitem_columns df' iname idx kcs'
      | inl e => inl e
      end
  end.

Definition setitem_frame (df : DataFrame) (keys : list string)
  (value : DataFrame) : exn + DataFrame :=
  if decide (length (columns value) = length keys) then
    setitem_columns df (index_name value) (index value)
      (zip keys (columns value))
  else inl (ValueError "Columns must be same length as key").

(** [df.fillna(value=c)]: every missing cell of every column. *)
Definition fill_cell (v c : cell) : cell := if is_nan c then v else c.

Definition fillna (v : cell) (df : DataFrame) : DataFrame :=
  mkDataFrame (index_name df) (index df)
    ((λ nc : string * list cell, (nc.1, fill_cell v <$> nc.2)) <$> columns df).

(** [a - b] for two columns of one frame: they share its index, and the
    subtraction is elementwise. *)
Definition series_sub (a b : Series) : Series :=
  mkSeries (s_index_name a) (s_index a)
    (zip_with cell_sub (s_values a) (s_values b)).

(** ** The store and the monad *)

Definition loc : Type := nat.
Definition heap : Type := loc → DataFrame.

Definition M (A : Type) : Type := heap → (exn + A) * heap.

Global Instance M_ret : MRet M := λ A a h, (inr a, h).
Global Instance M_bind : MBind M := λ A B f m h,
  match m h with
  | (inr a, h') => f a h'
  | (inl e, h') => (inl e, h')
  end.

(** A pure step that may raise. *)
Definition lift {A} (r : exn + A) : M A := λ h, (r, h).
Definition load (l : loc) : M DataFrame := λ h, (inr (h l), h).
Definition store (l : loc) (df : DataFrame) : M unit :=
  λ h, (inr (), <[l := df]> h).

(** ** clean_data *)

Definition res_types : list string :=
  ["res_type_1"; "res_type_2"; "res_type_3"].

Definition clean_data (reservation_df vehicle_df : loc) : M loc :=
  (* res = pd.get_dummies(reservation_df['reservation_type'],
                          prefix='res_type') *)
  R ← load reservation_df;
  rtype ← lift (getitem R "reservation_type");
  let res := get_dummies rtype "res_type" in
  (* res['reservation'] = 1 *)
  let res := setitem_scalar res "reservation" (Int 1) in
  (* res_by_vehicle = res.groupby(level='vehicle_id').sum() *)
  res_by_vehicle ← lift (groupby_sum res "vehicle_id");
  (* vehicle_df['total_reservations'] = res_by_vehicle['reservation'] *)
  total ← lift (getitem res_by_vehicle "reservation");
  V ← load vehicle_df;
  V ← lift (setitem_series V "total_reservations" total);
  store vehicle_df V;;
  (* vehicle_df[res_types] = res_by_vehicle[res_types] *)
  by_type ← lift (getitem_list res_by_vehicle res_types);
  V ← load vehicle_df;
  V ← lift (setitem_frame V res_types by_type);
  store vehicle_df V;;
  (* vehicle_df.fillna(value=0, inplace=True) *)
  V ← load vehicle_df;
  store vehicle_df (fillna (Int 0) V);;
  (* vehicle_df['price_difference'] =
       vehicle_df['actual_price'] - vehicle_df['recommended_price'] *)
  V ← load vehicle_df;
  actual ← lift (getitem V "actual_price");
  recommended ← lift (getitem V "recommended_price");
  V ← load vehicle_df;
  V ← lift (setitem_series V "price_difference"
              (series_sub actual recommended));
  store vehicle_df V;;
  (* return vehicle_df *)
  mret vehicle_df.

(** ** Running clean_data: the stages of a call *)

(** The stages of a call that returns.  The reservation table is read once,
    before the first update of the vehicle table, so the stages depend on
    the two frames of the initial store only, also when the two arguments
    are one object. *)
Record stages : Type := mkStages {
  st_rtype : Series;          (* reservation_df['reservation_type'] *)
  st_grouped : DataFrame;     (* res_by_vehicle *)
  st_total : Series;          (* res_by_vehicle['reservation'] *)
  st_V1 : DataFrame;          (* vehicle_df after line 25 *)
  st_by_type : DataFrame;     (* res_by_vehicle[res_types] *)
  st_V2 : DataFrame;          (* vehicle_df after line 27 *)
  st_actual : Series;
  st_recommended : Series;
  st_out : DataFrame          (* vehicle_df after line 33 *)
}.

Definition run_stages (R V : DataFrame) (s : stages) : Prop :=
  getitem R "reservation_type" = inr (st_rtype s) ∧
  groupby_sum
    (setitem_scalar (get_dummies (st_rtype s) "res_type") "reservation" (Int 1))
    "vehicle_id" = inr (st_grouped s) ∧
  getitem (st_grouped s) "reservation" = inr (st_total s) ∧
  setitem_series V "total_reservations" (st_total s) = inr (st_V1 s) ∧
  getitem_list (st_grouped s) res_types = inr (st_by_type s) ∧
  setitem_frame (st_V1 s) res_types (st_by_type s) = inr (st_V2 s) ∧
  getitem (fillna (Int 0) (st_V2 s)) "actual_price" = inr (st_actual s) ∧
  getitem (fillna (Int 0) (st_V2 s)) "recommended_price"
    = inr (st_recommended s) ∧
  setitem_series (fillna (Int 0) (st_V2 s)) "price_difference"
    (series_sub (st_actual s) (st_recommended s)) = inr (st_out s).


(** ** Vocabulary of the specification *)

(** The reservation records of a reservation table: the vehicle each one
    references and its type. *)
Definition reservations (R : DataFrame) : list (Z * cell) :=
  zip (index R) (default [] (get_col (columns R) "reservation_type")).

(** The number of reservation records that reference vehicle [k]. *)
Definition count_reservations (k : Z) (R : DataFrame) : Z :=
  Z.of_nat (length (filter (λ p, p.1 = k) (reservations R))).

(** The number of those that have type [t]. *)
Definition count_of_type (k t : Z) (R : DataFrame) : Z :=
  Z.of_nat (length (filter (λ p, p.1 = k ∧ p.2 = Int t) (reservations R))).

(** The number of those whose type is none of the three fixed ones. *)
Definition count_other (k : Z) (R : DataFrame) : Z :=
  Z.of_nat (length (filter (λ p, p.1 = k ∧ p.2 ∉ [Int 1; Int 2; Int 3])
                      (reservations R))).

(** The columns clean_data assigns. *)
Definition added_columns : list string :=
  "total_reservations" :: res_types ++ ["price_difference"].

(** The rows of the output: those of the vehicle table, unless it has
    none ([ensure_valid_index]). *)
Definition out_index (R V : DataFrame) : list Z :=
  match index V with
  | [] => group_keys (index R)
  | _ :: _ => index V
  end.

(** A column the vehicle table has on entry, on the rows of the output. *)
Definition enlarge (R V : DataFrame) (c : list cell) : list cell :=
  match index V with
  | [] => replicate (length (group_keys (index R))) NaN
  | _ :: _ => c
  end.

(** The reservation tables on which lines 21-27 run through: the table has
    the column reservation_type and is indexed by vehicle_id, no
    reservation lacks its type, and each of the types 1, 2, 3 occurs. *)
Definition accepts_reservations (R : DataFrame) : Prop :=
  ∃ tcol,
    get_col (columns R) "reservation_type" = Some tcol ∧
    index_name R = "vehicle_id" ∧
    existsb is_nan tcol = false ∧
    (∀ t, t ∈ [1; 2; 3] → Int t ∈ tcol).

(** The inputs on which clean_data returns: the vehicle table has, besides,
    both price columns. *)
Definition accepts (R V : DataFrame) : Prop :=
  accepts_reservations R ∧
  is_Some (get_col (columns V) "actual_price") ∧
  is_Some (get_col (columns V) "recommended_price").

(** The columns of the vehicle table after the zero fill of line 30: the
    columns it had on entry, zero-filled, and the four counts. *)
Definition counted (R V : DataFrame) : list (string * list cell) :=
  let count (f : Z → Z) := (λ k, Int (f k)) <$> out_index R V in
  let kept :=
    (λ nc : string * list cell,
       (nc.1, (λ c, fill_cell (Int 0) <$> enlarge R V c) nc.2))
      <$> columns V in
  set_col "res_type_3" (count (λ k, count_of_type k 3 R))
    (set_col "res_type_2" (count (λ k, count_of_type k 2 R))
       (set_col "res_type_1" (count (λ k, count_of_type k 1 R))
          (set_col "total_reservations"
             (count (λ k, count_reservations k R)) kept))).

(** The vehicle table after line 30. *)
Definition after_fill (R V : DataFrame) : DataFrame :=
  mkDataFrame
    (match index V with [] => "vehicle_id" | _ :: _ => index_name V end)
    (out_index R V) (counted R V).

(** The table clean_data leaves in the vehicle object when it returns, in
    closed form ([clean_data_returns] below). *)
Definition features (R V : DataFrame) : DataFrame :=
  let price n := default [] (get_col (counted R V) n) in
  mkDataFrame
    (match index V with [] => "vehicle_id" | _ :: _ => index_name V end)
    (out_index R V)
    (set_col "price_difference"
       (zip_with cell_sub (price "actual_price") (price "recommended_price"))
       (counted R V)).

(** The vehicle table after line 25: the reservation totals aligned on its
    rows, missing for the vehicles that have no reservation. *)
Definition after_total (R V : DataFrame) : DataFrame :=
  mkDataFrame
    (match index V with [] => "vehicle_id" | _ :: _ => index_name V end)
    (out_index R V)
    (set_col "total_reservations"
       ((λ k, if decide (k ∈ group_keys (index R))
              then Int (count_reservations k R) else NaN)
          <$> out_index R V)
       ((λ nc : string * list cell, (nc.1, enlarge R V nc.2)) <$> columns V)).

(** The rows of a frame whose label satisfies [keep]. *)
Definition select_rows (keep : Z → bool) (df : DataFrame) : DataFrame :=
  mkDataFrame (index_name df) (filter (λ k, keep k = true) (index df))
    ((λ nc : string * list cell,
        (nc.1, (λ c, (filter (λ p, keep p.1 = true) (zip (index df) c)).*2)
                 nc.2))
       <$> columns df).

(** A reservation table without its orphans: the reservations of vehicles
    that are in the vehicle table [V]. *)
Definition without_orphans (V R : DataFrame) : DataFrame :=
  select_rows (λ k, bool_decide (k ∈ index V)) R.

(** ** The example of the specification

    Two vehicles, 1 and 2, with prices 100/80 and 50/60; three reservations
    of vehicle 1, of types A, A, B.  The three types of the specification
    are the types 1, 2, 3 of the program (the columns res_type_1,
    res_type_2, res_type_3). *)

Definition example_vehicles : DataFrame :=
  mkDataFrame "vehicle_id" [1; 2]
    [("actual_price", [Int 100; Int 50]);
     ("recommended_price", [Int 80; Int 60])].

Definition example_reservations : DataFrame :=
  mkDataFrame "vehicle_id" [1; 1; 1]
    [("reservation_type", [Int 1; Int 1; Int 2])].

(** The same reservations and one of type C, of a vehicle 3 that the
    vehicle table does not have. *)
Definition example_reservations_C : DataFrame :=
  mkDataFrame "vehicle_id" [1; 1; 1; 3]
    [("reservation_type", [Int 1; Int 1; Int 2; Int 3])].

Definition example_output : DataFrame :=
  mkDataFrame "vehicle_id" [1; 2]
    [("actual_price", [Int 100; Int 50]);
     ("recommended_price", [Int 80; Int 60]);
     ("total_reservations", [Int 3; Int 0]);
     ("res_type_1", [Int 2; Int 0]);
     ("res_type_2", [Int 1; Int 0]);
     ("res_type_3", [Int 0; Int 0]);
     ("price_difference", [Int 20; Int (-10)])].

Definition empty_frame : DataFrame := mkDataFrame "" [] [].

(** A store with the reservation table at 0 and the vehicle table at 1. *)
Definition example_heap (R V : DataFrame) : heap :=
  <[0%nat := R]> (<[1%nat := V]> (λ _, empty_frame)).

(** A vehicle table that has its columns and no row. *)
Definition no_vehicles : DataFrame :=
  mkDataFrame "vehicle_id" []
    [("actual_price", []); ("recommended_price", [])].

(** One reservation of each type, all of vehicle 1. *)
Definition one_of_each : DataFrame :=
  mkDataFrame "vehicle_id" [1; 1; 1]
    [("reservation_type", [Int 1; Int 2; Int 3])].

(** A reservation table that has no column reservation_type. *)
Definition untyped_reservations : DataFrame :=
  mkDataFrame "vehicle_id" [1; 1; 1] [("duration", [Int 4; Int 2; Int 7])].

(** A vehicle whose actual price is missing. *)
Definition unpriced_vehicles : DataFrame :=
  mkDataFrame "vehicle_id" [1; 2]
    [("actual_price", [NaN; Int 50]);
     ("recommended_price", [Int 80; Int 60]);
     ("num_images", [Int 5; NaN])].

(** Reservations of a type that is none of the three: two of type 4. *)
Definition mixed_reservations : DataFrame :=
  mkDataFrame "vehicle_id" [1; 1; 1; 1; 2; 1]
    [("reservation_type", [Int 1; Int 2; Int 3; Int 4; Int 4; Int 1])].

(** A call on a store that holds just the two tables. *)
Definition example_run (R V : DataFrame) : (exn + loc) * heap :=
  clean_data 0%nat 1%nat (example_heap R V).

(** One reservation of each type for vehicle 1, and a reservation of a
    vehicle 9 that the vehicle table does not have. *)
Definition orphan_reservations : DataFrame :=
  mkDataFrame "vehicle_id" [1; 9; 1; 1]
    [("reservation_type", [Int 1; Int 2; Int 2; Int 3])].

(** ** Further examples *)

(** The records of [orphan_reservations] in another order. *)
Definition orphan_reservations_reordered : DataFrame :=
  mkDataFrame "vehicle_id" [1; 1; 9; 1]
    [("reservation_type", [Int 3; Int 2; Int 2; Int 1])].

(** A reservation table whose index has no name, as read without
    index_col. *)
Definition unindexed_reservations : DataFrame :=
  mkDataFrame "" [0; 1; 2]
    [("vehicle_id", [Int 1; Int 1; Int 1]);
     ("reservation_type", [Int 1; Int 2; Int 3])].

(** One reservation of each type, and one whose type is missing. *)
Definition untyped_record : DataFrame :=
  mkDataFrame "vehicle_id" [1; 1; 1; 2]
    [("reservation_type", [Int 1; Int 2; Int 3; NaN])].

(** * The reports and the plots

    The rest of the script prints statistics and draws plots.  The calls
    into pandas' statistics, seaborn, matplotlib and scipy are effects:
    each call that completes is appended to a trace, with its arguments.
    Floating-point arguments are kept symbolic ([number]); what a call
    prints or draws is not modelled.  Whether a call into a library
    completes or raises is not decided by the script: it is given by the
    environment ([library]), as a function of the calls made so far. *)

(** A floating-point argument, by the expression that computes it. *)
Inductive number : Type :=
  | mean (s : list cell)
  | mean_plus_std (s : list cell)
  | mean_minus_std (s : list cell).

Inductive libcall : Type :=
  | pd_read_csv (file index_col : string)
  | print_describe (df : DataFrame)
  | print_corr (method : string) (df : DataFrame)
  | plt_subplots
  | sns_distplot (a : Series) (bins : list Z) (hist : bool)
  | sns_boxplot (x y : Series)
  | sns_regplot (x y : Series)
  | sns_violinplot (x y : Series) (inner : string)
  | scipy_pearsonr (x y : Series)
  | plt_scatter (x : Z) (y : number) (color label : string)
  | ax_axvline (x : number) (color : string) (label ls : option string)
  | ax_annotate_pearsonr (x y : Series) (xy : Z * Z) (xycoords : string)
  | ax_set_xlabel (s : string)
  | ax_set_ylabel (s : string)
  | ax_set_title (s : string)
  | ax_set_xticklabels (labels : list string)
  | ax_set_ylim (lo hi : Z)
  | ax_legend (loc : option Z)
  | plt_tight_layout (pad w_pad h_pad : string)
  | plt_savefig (fname : string).

(** What ends a run: an exception of the script's own operations, a name
    that is not defined, or an exception out of a library call. *)
Inductive error : Type :=
  | Raised (e : exn)
  | NameError (name : string)
  | LibraryError (what : string).

Record world : Type := mkWorld {
  objects : heap;
  trace : list libcall
}.

Definition IO (A : Type) : Type := world → (error + A) * world.

Global Instance IO_ret : MRet IO := λ A a w, (inr a, w).
Global Instance IO_bind : MBind IO := λ A B f m w,
  match m w with
  | (inr a, w') => f a w'
  | (inl e, w') => (inl e, w')
  end.

Definition throw {A} (e : error) : IO A := λ w, (inl e, w).

(** A step of the pure part, which may raise. *)
Definition pure_step {A} (r : exn + A) : IO A :=
  λ w, (match r with inl e => inl (Raised e) | inr a => inr a end, w).

(** A computation on the store alone. *)
Definition on_store {A} (m : M A) : IO A := λ w,
  match m (objects w) with
  | (inl e, h) => (inl (Raised e), mkWorld h (trace w))
  | (inr a, h) => (inr a, mkWorld h (trace w))
  end.

(** The files a call has saved, in order. *)
Definition saved (t : list libcall) : list string :=
  omap (λ c, match c with plt_savefig f => Some f | _ => None end) t.

(** [df[df[name] == z]]: the rows where the column holds [z]. *)
Definition mask_eq (s : Series) (z : Z) : list bool :=
  (λ c, bool_decide (c = Int z)) <$> s_values s.

Definition select_mask {A} (mask : list bool) (l : list A) : list A :=
  (filter (λ p, p.1 = true) (zip mask l)).*2.

Definition getitem_mask (df : DataFrame) (mask : list bool) : DataFrame :=
  mkDataFrame (index_name df) (select_mask mask (index df))
    ((λ nc : string * list cell, (nc.1, select_mask mask nc.2))
       <$> columns df).

(** The line feed of a Python string. *)
Definition newline : string := String (Ascii.ascii_of_nat 10) "".

Definition features_1 : list string :=
  ["actual_price"; "recommended_price"; "price_difference";
   "total_reservations"].

Definition features2 : list string :=
  ["num_images"; "description"; "total_reservations"].

Section script.
Context (library : list libcall → libcall → option string).
Context (read_csv : string → string → error + DataFrame).

(** A call into a library: it raises when the environment says so, else
    it completes and is recorded. *)
Definition call (c : libcall) : IO unit := λ w,
  match library (trace w) c with
  | Some what => (inl (LibraryError what), w)
  | None => (inr (), mkWorld (objects w) (trace w ++ [c]))
  end.

(** [pd.read_csv(file, index_col=index_col)]: the table comes from the
    environment, and becomes a new object of the store, at [l]. *)
Definition read_into (l : loc) (file index_col : string) : IO loc := λ w,
  match read_csv file index_col with
  | inl e => (inl e, w)
  | inr df =>
      (inr l, mkWorld (<[l := df]> (objects w))
                (trace w ++ [pd_read_csv file index_col]))
  end.

Definition do_some_eda (vehicle_df : loc) : IO unit :=
  V ← on_store (load vehicle_df);
  (* print vehicle_df.describe() *)
  call (print_describe V);;
  (* print vehicle_df[features_1].corr() *)
  sub ← pure_step (getitem_list V features_1);
  call (print_corr "pearson" sub);;
  (* print vehicle_df[features2].corr(method='spearman') *)
  sub ← pure_step (getitem_list V features2);
  call (print_corr "spearman" sub).

Definition plot_reservations_dist (vehicle_df : loc) : IO unit :=
  V ← on_store (load vehicle_df);
  feature ← pure_step (getitem V "total_reservations");
  call plt_subplots;;
  a ← pure_step (getitem V "total_reservations");
  call (sns_distplot a (seqZ 0 25) true);;
  call (ax_set_ylabel "Probability");;
  call (ax_axvline (mean (s_values feature)) "g" (Some "Mean") None);;
  call (ax_axvline (mean_plus_std (s_values feature)) "purple" (Some "STD")
          (Some "dotted"));;
  call (ax_axvline (mean_minus_std (s_values feature)) "purple" None
          (Some "dotted"));;
  call (ax_set_title "Total Number of Reservations Distribution");;
  call (ax_set_xlabel "Total Reservations");;
  call (ax_legend None);;
  call (plt_tight_layout "0.4" "0.5" "1.0");;
  call (plt_savefig "total_res_distr").

Definition make_box_plot (vehicle_df : loc) : IO unit :=
  V ← on_store (load vehicle_df);
  call plt_subplots;;
  x ← pure_step (getitem V "num_images");
  y ← pure_step (getitem V "total_reservations");
  call (sns_boxplot x y);;
  call (ax_set_ylabel "Total Reservations");;
  call (ax_set_title "Total Reservations vs. Number of Images");;
  call (ax_set_xlabel "Number of Images");;
  call (ax_set_ylim (-1) 27);;
  call (plt_tight_layout "0.4" "0.5" "1.0");;
  call (plt_savefig "image_res_box_plot").

Definition make_reg_plot (vehicle_df : loc) : IO unit :=
  V ← on_store (load vehicle_df);
  x ← pure_step (getitem V "price_difference");
  y ← pure_step (getitem V "total_reservations");
  call (scipy_pearsonr x y);;
  call plt_subplots;;
  call (sns_regplot x y);;
  call (ax_set_ylabel "Total Reservations");;
  call (ax_set_xlabel "Price Difference");;
  call (ax_set_title "Total Reservations vs. Price Difference");;
  call (ax_annotate_pearsonr x y (350, 320) "axes points");;
  call (plt_tight_layout "0.4" "0.5" "1.0");;
  call (plt_savefig "total_res_vs_price_diff").

(** [vehicle_df[vehicle_df['technology'] == z]['total_reservations']] *)
Definition technology_group (V : DataFrame) (z : Z) : exn + Series :=
  match getitem V "technology" with
  | inl e => inl e
  | inr tech => getitem (getitem_mask V (mask_eq tech z)) "total_reservations"
  end.

Definition make_violin_plot (vehicle_df : loc) (feature target inner : string)
  : IO unit :=
  V ← on_store (load vehicle_df);
  call plt_subplots;;
  x ← pure_step (getitem V feature);
  y ← pure_step (getitem V target);
  call (sns_violinplot x y inner);;
  if decide (feature = "technology" ∧ target = "total_reservations") then
    tech_1 ← pure_step (technology_group V 1);
    tech_0 ← pure_step (technology_group V 0);
    call (plt_scatter 1 (mean (s_values tech_1)) "white" "Tech=1 Mean");;
    call (plt_scatter 0 (mean (s_values tech_0)) "black" "Tech=0 Mean");;
    call (ax_set_ylabel "Total Reservations");;
    call (ax_set_xlabel "Technology");;
    call (ax_set_title
            ("KDE of Total Reservations vs. Technology "
             +:+ newline +:+ " With Quartiles Marked"));;
    call (ax_legend (Some 9));;
    call (plt_tight_layout "0.4" "0.5" "1.5");;
    call (plt_savefig "total_res_vs_technology")
  else if decide (feature = "street_parked" ∧ target = "total_reservations")
  then
    call (ax_set_ylabel "Total Reservations");;
    call (ax_set_xlabel "Street Parked");;
    call (ax_set_xticklabels ["No"; "Yes"]);;
    call (ax_set_title "KDE of Total Reservations vs. Street Parked");;
    call (plt_savefig "total_res_vs_street_parked");;
    call (plt_tight_layout "0.4" "0.5" "1.5")
  else if decide (feature = "technology") then
    call (ax_set_xlabel "Technology");;
    if decide (target = "res_type_1") then
      call (ax_set_ylabel "Number of Hourly Rentals");;
      call (ax_set_title "KDE of Hourly Rentals vs. Technology");;
      call (plt_savefig "hourly_res_vs_technology");;
      call (plt_tight_layout "0.4" "0.5" "1.5")
    else if decide (target = "res_type_2") then
      call (ax_set_ylabel "Number of Daily Rentals");;
      call (ax_set_title "KDE of Daily Rentals vs. Technology");;
      call (plt_savefig "daily_res_vs_technology");;
      call (plt_tight_layout "0.4" "0.5" "1.5")
    else if decide (target = "res_type_3") then
      call (ax_set_ylabel "Number of Weekly Rentals");;
      call (ax_set_title "KDE of Weekly Rentals vs. Technology");;
      call (plt_savefig "weekly_res_vs_technology");;
      call (plt_tight_layout "0.4" "0.5" "1.5")
    else mret ()
  else mret ().

(** The script, run as a program.  The two tables it reads become the
    objects 1 (vehicles) and 0 (reservations) of the store.  No function
    make_joint_plot is defined in the module: the call raises NameError. *)
Definition main : IO unit :=
  vehicle_df ← read_into 1%nat "vehicles_(6).csv" "vehicle_id";
  reservation_df ← read_into 0%nat "reservations_(5).csv" "vehicle_id";
  vehicle_df ← on_store (clean_data reservation_df vehicle_df);
  do_some_eda vehicle_df;;
  plot_reservations_dist vehicle_df;;
  make_box_plot vehicle_df;;
  (throw (NameError "make_joint_plot") : IO unit);;
  make_violin_plot vehicle_df "technology" "total_reservations" "quartiles";;
  make_violin_plot vehicle_df "street_parked" "total_reservations" "box";;
  make_violin_plot vehicle_df "technology" "res_type_1" "box";;
  make_violin_plot vehicle_df "technology" "res_type_2" "box".

End script.

(** ** Runs and their traces *)

Definition is_normal {A} (r : error + A) : Prop :=
  match r with inr _ => True | inl _ => False end.

(** [saves m files]: a run of [m] saves a prefix of [files], and all of
    them when it returns. *)
Definition saves {A} (m : IO A) (files : list string) : Prop :=
  ∀ w r w', m w = (r, w') →
    ∃ t, trace w' = trace w ++ t ∧
         saved t `prefix_of` files ∧ (is_normal r → saved t = files).

(** [emits P m]: every call that a run of [m] records satisfies [P]. *)
Definition emits {A} (P : libcall → Prop) (m : IO A) : Prop :=
  ∀ w r w', m w = (r, w') →
    ∃ t, trace w' = trace w ++ t ∧ Forall P t.

Definition is_savefig (c : libcall) : Prop :=
  match c with plt_savefig _ => True | _ => False end.

(** [aborts m]: no run of [m] returns. *)
Definition aborts {A} (m : IO A) : Prop :=
  ∀ w r w', m w = (r, w') → ¬ is_normal r.

(** The calls that draw a regression or a violin plot. *)
Definition draws_reg_or_violin (c : libcall) : Prop :=
  match c with
  | sns_regplot _ _ | sns_violinplot _ _ _ | plt_scatter _ _ _ _
  | scipy_pearsonr _ _ | ax_annotate_pearsonr _ _ _ _ => True
  | _ => False
  end.

(** The file under which make_violin_plot saves the plot of [feature]
    against [target], if it saves it ([make_violin_plot_saves] below). *)
Definition violin_file (feature target : string) : option string :=
  if decide (feature = "technology" ∧ target = "total_reservations")
  then Some "total_res_vs_technology"
  else if decide (feature = "street_parked" ∧ target = "total_reservations")
  then Some "total_res_vs_street_parked"
  else if decide (feature = "technology") then
    if decide (target = "res_type_1") then Some "hourly_res_vs_technology"
    else if decide (target = "res_type_2") then Some "daily_res_vs_technology"
    else if decide (target = "res_type_3") then Some "weekly_res_vs_technology"
    else None
  else None.

(** A library that never raises. *)
Definition cooperative (library : list libcall → libcall → option string)
  : Prop :=
  ∀ t c, library t c = None.

(** [raises Q m]: an exception of the script's own operations that ends a
    run of [m] satisfies [Q]. *)
Definition raises {A} (Q : exn → Prop) (m : IO A) : Prop :=
  ∀ w r w' e, m w = (r, w') → r = inl (Raised e) → Q e.

(** The calls a run from [w] to [w'] has recorded. *)
Definition new_calls (w w' : world) : list libcall :=
  drop (length (trace w)) (trace w').

(** A library in which no call raises. *)
Definition quiet : list libcall → libcall → option string := λ _ _, None.

(** A vehicle table with all the attributes of the data set. *)
Definition full_vehicles : DataFrame :=
  mkDataFrame "vehicle_id" [1; 2]
    [("technology", [Int 1; Int 0]);
     ("actual_price", [Int 100; Int 50]);
     ("recommended_price", [Int 80; Int 60]);
     ("num_images", [Int 5; Int 3]);
     ("street_parked", [Int 0; Int 1]);
     ("description", [Int 7; Int 16])].

(** The world after clean_data has run on [orphan_reservations] and
    [full_vehicles]; nothing has been printed or drawn yet. *)
Definition cleaned_world : world :=
  mkWorld (snd (example_run orphan_reservations full_vehicles)) [].

(** The files of the script, as an environment for [main]. *)
Definition example_files (file index_col : string) : error + DataFrame :=
  if decide (file = "vehicles_(6).csv") then inr full_vehicles
  else if decide (file = "reservations_(5).csv") then inr orphan_reservations
  else inl (LibraryError "IOError").

(** [runs_ok w m files]: from the world [w], [m] returns, leaves the
    objects as they are and saves exactly [files]. *)
Definition runs_ok {A} (w : world) (m : IO A) (files : list string) : Prop :=
  ∃ a t, m w = (inr a, mkWorld (objects w) (trace w ++ t))
         ∧ saved t = files.
(** * Properties *)

(** ** The store *)

Lemma heap_lookup_insert (h : heap) (l : loc) (df : DataFrame) :
  (<[l := df]> h) l = df.
Proof. unfold insert, fn_insert. by destruct (decide (l = l)). Qed.

Lemma heap_lookup_insert_ne (h : heap) (l l' : loc) (df : DataFrame) :
  l ≠ l' → (<[l := df]> h) l' = h l'.
Proof. intros. unfold insert, fn_insert. by destruct (decide (l = l')). Qed.

(** ** Inversion of a call *)

Lemma clean_data_inr (r v : loc) (h h' : heap) (l : loc) :
  clean_data r v h = (inr l, h') →
  ∃ s, run_stages (h r) (h v) s ∧
       l = v ∧ h' v = st_out s ∧ ∀ l', l' ≠ v → h' l' = h l'.
Proof.
  unfold clean_data, mbind, M_bind, lift, load, store, mret, M_ret.
  destruct (getitem (h r) "reservation_type") as [e|rtype] eqn:E1; [done|].
  destruct (groupby_sum _ "vehicle_id") as [e|G] eqn:E2; [done|].
  destruct (getitem G "reservation") as [e|total] eqn:E3; [done|].
  destruct (setitem_series (h v) _ total) as [e|V1] eqn:E4; [done|].
  destruct (getitem_list G res_types) as [e|bt] eqn:E5; [done|].
  rewrite !heap_lookup_insert.
  destruct (setitem_frame V1 res_types bt) as [e|V2] eqn:E6; [done|].
  rewrite !heap_lookup_insert.
  destruct (getitem (fillna _ V2) "actual_price") as [e|a] eqn:E7; [done|].
  destruct (getitem (fillna _ V2) "recommended_price") as [e|b] eqn:E8; [done|].
  destruct (setitem_series (fillna _ V2) _ _) as [e|V4] eqn:E9; [done|].
  intros [= <- <-].
  exists (mkStages rtype G total V1 bt V2 a b V4).
  split; [by repeat split|].
  split; [done|]. split; [by rewrite heap_lookup_insert|].
  intros l' Hl'. by rewrite !heap_lookup_insert_ne.
Qed.

Lemma clean_data_run (r v : loc) (h : heap) (s : stages) :
  run_stages (h r) (h v) s →
  clean_data r v h =
    (inr v, <[v := st_out s]> (<[v := fillna (Int 0) (st_V2 s)]>
              (<[v := st_V2 s]> (<[v := st_V1 s]> h)))).
Proof.
  intros (E1 & E2 & E3 & E4 & E5 & E6 & E7 & E8 & E9).
  unfold clean_data, mbind, M_bind, lift, load, store, mret, M_ret.
  rewrite E1, E2, E3, E4, E5, !heap_lookup_insert, E6, !heap_lookup_insert,
    E7, E8, E9.
  done.
Qed.

(** ** Columns *)

Section columns.
Implicit Types (cols : list (string * list cell)) (n : string).

Lemma get_col_set_col_eq cols n v : get_col (set_col n v cols) n = Some v.
Proof.
  induction cols as [|[m c] cols IH]; simpl.
  - by rewrite decide_True.
  - destruct (decide (m = n)) as [->|Hne]; simpl.
    + by rewrite decide_True.
    + by rewrite decide_False.
Qed.

Lemma get_col_set_col_ne cols n n' v :
  n ≠ n' → get_col (set_col n v cols) n' = get_col cols n'.
Proof.
  intros Hne. induction cols as [|[m c] cols IH]; simpl.
  - by rewrite decide_False.
  - destruct (decide (m = n)) as [->|Hmn]; simpl.
    + by rewrite !decide_False.
    + by rewrite IH.
Qed.

Lemma set_col_names cols n v m :
  m ∈ (set_col n v cols).*1 ↔ m = n ∨ m ∈ cols.*1.
Proof.
  induction cols as [|[m' c] cols IH]; simpl.
  - set_solver.
  - destruct (decide (m' = n)) as [->|Hne]; simpl; set_solver.
Qed.

Lemma get_col_fmap (f : list cell → list cell) cols n :
  get_col ((λ nc : string * list cell, (nc.1, f nc.2)) <$> cols) n
  = f <$> get_col cols n.
Proof.
  induction cols as [|[m c] cols IH]; simpl; [done|].
  by destruct (decide (m = n)).
Qed.

Lemma fmap_names (f : list cell → list cell) cols :
  ((λ nc : string * list cell, (nc.1, f nc.2)) <$> cols).*1 = cols.*1.
Proof. induction cols as [|[m c] cols IH]; csimpl; [done|]. by f_equal. Qed.

Lemma get_col_None cols n : get_col cols n = None ↔ n ∉ cols.*1.
Proof.
  induction cols as [|[m c] cols IH]; simpl.
  - set_solver.
  - destruct (decide (m = n)) as [->|Hne]; set_solver.
Qed.

(** Columns generated from a list of keys by an injective naming. *)
Lemma get_col_generated {A} `{EqDecision A}
    (f : A → string) (g : A → list cell) (l : list A) (a : A) :
  Inj (=) (=) f →
  get_col ((λ v, (f v, g v)) <$> l) (f a)
  = if decide (a ∈ l) then Some (g a) else None.
Proof.
  intros Hinj. induction l as [|b l IH]; csimpl; [done|].
  destruct (decide (f b = f a)) as [Hfa|Hfa].
  - apply Hinj in Hfa as ->. by rewrite decide_True by set_solver.
  - rewrite IH. assert (b ≠ a) by congruence.
    destruct (decide (a ∈ l)).
    + by rewrite decide_True by set_solver.
    + by rewrite decide_False by set_solver.
Qed.

Lemma get_col_generated_None {A}
    (f : A → string) (g : A → list cell) (l : list A) n :
  (∀ a, a ∈ l → f a ≠ n) →
  get_col ((λ v, (f v, g v)) <$> l) n = None.
Proof.
  induction l as [|b l IH]; csimpl; [done|]. intros H.
  rewrite decide_False by (apply H; set_solver).
  apply IH. intros a Ha. apply H. set_solver.
Qed.
End columns.

(** ** Group keys and alignment *)

Lemma elem_of_group_keys (k : Z) (idx : list Z) :
  k ∈ group_keys idx ↔ k ∈ idx.
Proof.
  unfold group_keys. rewrite merge_sort_Permutation.
  apply elem_of_remove_dups.
Qed.

Lemma NoDup_group_keys (idx : list Z) : NoDup (group_keys idx).
Proof.
  unfold group_keys. rewrite merge_sort_Permutation.
  apply NoDup_remove_dups.
Qed.

Lemma group_keys_nil_inv (idx : list Z) : group_keys idx = [] → idx = [].
Proof.
  intros H. destruct idx as [|k idx]; [done|].
  assert (k ∈ group_keys (k :: idx)) as Hk
    by (apply elem_of_group_keys; set_solver).
  rewrite H in Hk. by apply elem_of_nil in Hk.
Qed.

Lemma lookup_label_fmap (f : Z → cell) (k : Z) (keys : list Z) :
  lookup_label k keys (f <$> keys) = if decide (k ∈ keys) then f k else NaN.
Proof.
  induction keys as [|i keys IH]; csimpl; [done|].
  destruct (decide (i = k)) as [->|Hne].
  - by rewrite decide_True by set_solver.
  - rewrite IH. destruct (decide (k ∈ keys)).
    + by rewrite decide_True by set_solver.
    + by rewrite decide_False by set_solver.
Qed.

(** Aligning a series on its own index gives its values back. *)
Lemma reindex_self (s : Series) :
  NoDup (s_index s) → length (s_values s) = length (s_index s) →
  reindex s (s_index s) = s_values s.
Proof.
  destruct s as [nm idx vals]; unfold reindex; csimpl.
  revert vals. induction idx as [|i idx IH]; intros vals Hnd Hlen.
  - by destruct vals.
  - destruct vals as [|v vals]; [done|]. simpl in *.
    pose proof (NoDup_cons_1_1 _ _ Hnd) as Hi.
    apply NoDup_cons_1_2 in Hnd. rewrite decide_True by done.
    f_equal. etrans; [|apply (IH vals); [done|lia]].
    apply list_fmap_ext. intros j k Hk.
    rewrite decide_False; [done|].
    intros ->. apply Hi. by eapply list_elem_of_lookup_2.
Qed.

(** ** Sums over the rows of a vehicle *)

Lemma sum_reservation_column (k : Z) (idx : list Z) (tcol : list cell) :
  length tcol = length idx →
  col_sum (group_rows k idx (replicate (length idx) (Int 1)))
  = Z.of_nat (length (filter (λ p, p.1 = k) (zip idx tcol))).
Proof.
  unfold group_rows. revert tcol.
  induction idx as [|i idx IH]; intros [|t tcol] Hlen; try done.
  simpl in Hlen. simpl. rewrite !filter_cons. simpl.
  specialize (IH tcol ltac:(lia)).
  case_decide; csimpl; rewrite IH; lia.
Qed.

Lemma sum_dummy_column (k v : Z) (idx : list Z) (tcol : list cell) :
  col_sum (group_rows k idx (indicator v <$> tcol))
  = Z.of_nat (length (filter (λ p, p.1 = k ∧ p.2 = Int v) (zip idx tcol))).
Proof.
  unfold group_rows. revert tcol.
  induction idx as [|i idx IH]; intros [|t tcol]; try done.
  csimpl. rewrite !filter_cons. simpl. specialize (IH tcol).
  unfold indicator at 1.
  repeat case_decide; csimpl; rewrite IH; try lia; naive_solver.
Qed.

(** No reservation of a vehicle: every sum over its rows is zero. *)
Lemma group_rows_absent (k : Z) (idx : list Z) (col : list cell) :
  k ∉ idx → group_rows k idx col = [].
Proof.
  unfold group_rows. revert col.
  induction idx as [|i idx IH]; intros [|c col] Hk; try done.
  simpl. rewrite filter_cons. simpl.
  rewrite decide_False by set_solver. apply IH. set_solver.
Qed.

Lemma count_split (k : Z) (R : DataFrame) :
  count_reservations k R
  = count_of_type k 1 R + count_of_type k 2 R + count_of_type k 3 R
    + count_other k R.
Proof.
  unfold count_reservations, count_of_type, count_other.
  induction (reservations R) as [|[i t] l IH]; [done|].
  rewrite !filter_cons. simpl.
  destruct (decide (i = k)) as [->|Hne].
  - destruct (decide (t = Int 1)) as [->|H1];
      [|destruct (decide (t = Int 2)) as [->|H2];
        [|destruct (decide (t = Int 3)) as [->|H3]]];
      repeat case_decide; simpl; try lia;
      try (exfalso; set_solver).
  - repeat case_decide; simpl; try lia; naive_solver.
Qed.

(** ** The columns of get_dummies and of the grouped frame *)

Lemma elem_of_levels (v : Z) (vals : list cell) :
  v ∈ levels vals ↔ Int v ∈ vals.
Proof.
  unfold levels. rewrite merge_sort_Permutation, elem_of_remove_dups.
  rewrite list_elem_of_omap. split.
  - intros ([|z] & Hin & Hz); simplify_eq/=. done.
  - intros Hin. by exists (Int v).
Qed.

Lemma float_label_length (s : string) (c : Ascii.ascii) :
  s +:+ ".0" ≠ String c "".
Proof. destruct s as [|a [|b s]]; done. Qed.

Lemma res_type_name (t : Z) :
  t ∈ [1; 2; 3] →
  "res_type_" +:+ pretty t ∈ res_types ∧
  ∃ c, pretty t = String c "".
Proof.
  intros Ht. assert (t = 1 ∨ t = 2 ∨ t = 3) as [->|[->| ->]] by set_solver.
  all: split; [vm_compute; set_solver | eexists; vm_compute; done].
Qed.

Lemma res_type_prefix (x : string) :
  "res_type" +:+ "_" +:+ x = "res_type_" +:+ x.
Proof. reflexivity. Qed.

Lemma res_type_not_reservation (x : string) :
  "res_type_" +:+ x ≠ "reservation".
Proof. cbv [String.append]. congruence. Qed.

Lemma res_type_label_inj :
  Inj (=) (=) (λ v : Z, "res_type" +:+ "_" +:+ level_label false v).
Proof.
  intros v w H. apply (inj pretty).
  by do 2 apply (inj (String.app _)) in H.
Qed.

Lemma dummy_column (s : Series) (t : Z) :
  t ∈ [1; 2; 3] →
  get_col (columns (get_dummies s "res_type")) ("res_type_" +:+ pretty t)
  = if existsb is_nan (s_values s) then None
    else if decide (Int t ∈ s_values s)
         then Some (indicator t <$> s_values s) else None.
Proof.
  intros Ht. unfold get_dummies. simpl columns.
  destruct (existsb is_nan (s_values s)).
  - apply get_col_generated_None. intros a _ H.
    destruct (res_type_name t Ht) as [_ [c Hc]].
    rewrite res_type_prefix in H. apply (inj (String.app _)) in H.
    rewrite Hc in H. by apply float_label_length in H.
  - etrans;
      [exact (get_col_generated
                (λ v : Z, "res_type" +:+ "_" +:+ level_label false v)
                (λ v, indicator v <$> s_values s) (levels (s_values s)) t
                res_type_label_inj)|].
    destruct (decide (Int t ∈ s_values s)) as [Hin|Hin].
    + by rewrite decide_True by by apply elem_of_levels.
    + by rewrite decide_False by by rewrite elem_of_levels.
Qed.

(** The dummy columns are all named res_type_...: none is the column
    [reservation]. *)
Lemma dummy_column_reservation (s : Series) :
  get_col (columns (get_dummies s "res_type")) "reservation" = None.
Proof.
  unfold get_dummies. simpl columns.
  apply get_col_generated_None. intros a _.
  rewrite res_type_prefix. apply res_type_not_reservation.
Qed.

Section grouped.
Context (R : DataFrame) (rtype : Series) (G : DataFrame).
Context (Hrtype : getitem R "reservation_type" = inr rtype).
Context (Hgrouped :
  groupby_sum
    (setitem_scalar (get_dummies rtype "res_type") "reservation" (Int 1))
    "vehicle_id" = inr G).

Lemma rtype_values :
  get_col (columns R) "reservation_type" = Some (s_values rtype) ∧
  s_index rtype = index R ∧ s_index_name rtype = index_name R.
Proof.
  unfold getitem in Hrtype.
  destruct (get_col (columns R) "reservation_type"); by simplify_eq.
Qed.

Lemma reservations_rtype :
  reservations R = zip (index R) (s_values rtype).
Proof.
  unfold reservations. by destruct rtype_values as [-> _].
Qed.

Lemma grouped_frame :
  index_name R = "vehicle_id" ∧
  G = mkDataFrame "vehicle_id" (group_keys (index R))
        ((λ nc : string * list cell,
            (nc.1, (λ c, (λ k, Int (col_sum (group_rows k (index R) c)))
                           <$> group_keys (index R)) nc.2))
           <$> set_col "reservation"
                 (replicate (length (index R)) (Int 1))
                 (columns (get_dummies rtype "res_type"))).
Proof.
  destruct rtype_values as (_ & Hidx & Hname).
  unfold groupby_sum in Hgrouped. simpl in Hgrouped.
  rewrite Hidx, Hname in Hgrouped.
  destruct (decide (index_name R = "vehicle_id")); by simplify_eq.
Qed.

Lemma grouped_index : index G = group_keys (index R).
Proof. destruct grouped_frame as [_ ->]. done. Qed.

Lemma grouped_index_name : index_name G = "vehicle_id".
Proof. destruct grouped_frame as [_ ->]. done. Qed.

Lemma grouped_col (n : string) :
  get_col (columns G) n
  = (λ c, (λ k, Int (col_sum (group_rows k (index R) c)))
            <$> group_keys (index R))
    <$> get_col (set_col "reservation"
                   (replicate (length (index R)) (Int 1))
                   (columns (get_dummies rtype "res_type"))) n.
Proof.
  destruct grouped_frame as [_ ->].
  exact (get_col_fmap
           (λ c, (λ k, Int (col_sum (group_rows k (index R) c)))
                   <$> group_keys (index R)) _ n).
Qed.

Lemma grouped_reservation :
  wf_frame R = true →
  get_col (columns G) "reservation"
  = Some ((λ k, Int (count_reservations k R)) <$> group_keys (index R)).
Proof.
  intros Hwf. rewrite grouped_col, get_col_set_col_eq. simpl. f_equal.
  apply list_fmap_ext. intros _ k _. f_equal.
  unfold count_reservations. rewrite reservations_rtype.
  apply sum_reservation_column.
  destruct rtype_values as (Hcol & _).
  unfold wf_frame in Hwf. rewrite forallb_forall in Hwf.
  clear -Hwf Hcol. revert Hwf Hcol.
  induction (columns R) as [|[n c] cols IH]; simpl; [done|].
  intros Hwf. destruct (decide (n = "reservation_type")).
  - intros [= <-]. specialize (Hwf (n, c) ltac:(by left)).
    by apply Nat.eqb_eq in Hwf.
  - apply IH. intros x Hx. apply Hwf. by right.
Qed.

Lemma grouped_res_type (t : Z) :
  t ∈ [1; 2; 3] →
  get_col (columns G) ("res_type_" +:+ pretty t)
  = if existsb is_nan (s_values rtype) then None
    else if decide (Int t ∈ s_values rtype)
         then Some ((λ k, Int (count_of_type k t R))
                      <$> group_keys (index R))
         else None.
Proof.
  intros Ht.
  rewrite grouped_col, get_col_set_col_ne, (dummy_column _ _ Ht).
  - destruct (existsb is_nan (s_values rtype)); [done|].
    destruct (decide (Int t ∈ s_values rtype)); [|done].
    simpl. f_equal. apply list_fmap_ext. intros _ k _. f_equal.
    unfold count_of_type. rewrite reservations_rtype.
    apply sum_dummy_column.
  - intros H. by apply (res_type_not_reservation (pretty t)).
Qed.
End grouped.

(** ** Assigning a series to a column *)

Lemma ensure_valid_index_nonempty (df : DataFrame) (s : Series) :
  index df ≠ [] → ensure_valid_index df s = df.
Proof. unfold ensure_valid_index. by destruct (index df). Qed.

(** A series with distinct labels is always accepted, and lands aligned on
    the index of the frame. *)
Lemma setitem_series_aligned (df : DataFrame) (n : string) (s : Series) :
  NoDup (s_index s) → length (s_values s) = length (s_index s) →
  setitem_series df n s =
    let df' := ensure_valid_index df s in
    inr (mkDataFrame (index_name df') (index df')
           (set_col n (reindex s (index df')) (columns df'))).
Proof.
  intros Hnd Hlen. unfold setitem_series, sanitize_column. cbv zeta.
  set (df' := ensure_valid_index df s).
  destruct (decide (s_index s = index df' ∨ index df' = [])) as [Heq|Hne].
  - assert (s_index s = index df') as Hidx.
    { destruct Heq as [|Hnil]; [done|]. rewrite Hnil.
      subst df'. unfold ensure_valid_index in Hnil.
      destruct (index df) eqn:E; simpl in Hnil; congruence. }
    by rewrite <- Hidx, reindex_self.
  - by rewrite decide_True.
Qed.

(** A series that already has the index of the frame is stored as it is. *)
Lemma setitem_series_same (df : DataFrame) (n : string) (s : Series) :
  s_index s = index df → index df ≠ [] →
  setitem_series df n s =
    inr (mkDataFrame (index_name df) (index df)
           (set_col n (s_values s) (columns df))).
Proof.
  intros Heq Hne. unfold setitem_series, sanitize_column.
  rewrite ensure_valid_index_nonempty by done.
  by rewrite decide_True by by left.
Qed.

Lemma reindex_fmap (nm : string) (f : Z → cell) (keys labels : list Z) :
  reindex (mkSeries nm keys (f <$> keys)) labels
  = (λ k, if decide (k ∈ keys) then f k else NaN) <$> labels.
Proof.
  unfold reindex. simpl. apply list_fmap_ext. intros _ k _.
  apply lookup_label_fmap.
Qed.

(** A count aligned on the output rows and zero-filled is the count. *)
Lemma fill_reindex_count (nm : string) (f : Z → Z) (idx labels : list Z) :
  (∀ k, k ∉ idx → f k = 0) →
  fill_cell (Int 0)
    <$> reindex (mkSeries nm (group_keys idx)
                   ((λ k, Int (f k)) <$> group_keys idx)) labels
  = (λ k, Int (f k)) <$> labels.
Proof.
  intros Hf. rewrite (reindex_fmap nm (λ k, Int (f k))).
  rewrite <- list_fmap_compose. apply list_fmap_ext. intros _ k _. simpl.
  destruct (decide (k ∈ group_keys idx)) as [Hk|Hk]; [done|].
  simpl. rewrite Hf; [done|]. by rewrite <- elem_of_group_keys.
Qed.

Lemma count_reservations_absent (k : Z) (R : DataFrame) :
  k ∉ index R → count_reservations k R = 0.
Proof.
  intros Hk. unfold count_reservations, reservations.
  generalize (default [] (get_col (columns R) "reservation_type")).
  induction (index R) as [|i idx IH]; intros [|c col]; try done.
  simpl. rewrite filter_cons. simpl.
  rewrite decide_False by set_solver. apply IH. set_solver.
Qed.

Lemma count_of_type_absent (k t : Z) (R : DataFrame) :
  k ∉ index R → count_of_type k t R = 0.
Proof.
  intros Hk. unfold count_of_type, reservations.
  generalize (default [] (get_col (columns R) "reservation_type")).
  induction (index R) as [|i idx IH]; intros [|c col]; try done.
  simpl. rewrite filter_cons. simpl.
  rewrite decide_False by set_solver. apply IH. set_solver.
Qed.

Lemma count_other_absent (k : Z) (R : DataFrame) :
  k ∉ index R → count_other k R = 0.
Proof.
  intros Hk. unfold count_other, reservations.
  generalize (default [] (get_col (columns R) "reservation_type")).
  induction (index R) as [|i idx IH]; intros [|c col]; try done.
  simpl. rewrite filter_cons. simpl.
  rewrite decide_False by set_solver. apply IH. set_solver.
Qed.

(** ** The closed form of a call that returns *)

Lemma wf_frame_col (df : DataFrame) (n : string) (c : list cell) :
  wf_frame df = true → get_col (columns df) n = Some c →
  length c = length (index df).
Proof.
  unfold wf_frame. rewrite forallb_forall.
  induction (columns df) as [|[m c'] cols IH]; simpl; [done|].
  intros Hwf. destruct (decide (m = n)).
  - intros [= <-]. specialize (Hwf (m, c') ltac:(by left)).
    by apply Nat.eqb_eq in Hwf.
  - apply IH. intros x Hx. apply Hwf. by right.
Qed.

Lemma fmap_set_col (f : list cell → list cell) (n : string) (v : list cell)
    (cols : list (string * list cell)) :
  (λ nc : string * list cell, (nc.1, f nc.2)) <$> set_col n v cols
  = set_col n (f v) ((λ nc : string * list cell, (nc.1, f nc.2)) <$> cols).
Proof.
  induction cols as [|[m c] cols IH]; csimpl; [done|].
  destruct (decide (m = n)); csimpl; [done|]. by rewrite IH.
Qed.

Lemma ensure_valid_index_columns (R V : DataFrame) (s : Series) :
  s_index s = group_keys (index R) →
  columns (ensure_valid_index V s)
  = (λ nc : string * list cell, (nc.1, enlarge R V nc.2)) <$> columns V.
Proof.
  intros Hs. unfold ensure_valid_index, enlarge.
  destruct (index V); simpl.
  - by rewrite Hs.
  - induction (columns V) as [|[m c] cols IH]; csimpl; [done|].
    by f_equal.
Qed.

Lemma ensure_valid_index_index (R V : DataFrame) (s : Series) :
  s_index s = group_keys (index R) →
  index (ensure_valid_index V s) = out_index R V.
Proof.
  intros Hs. unfold ensure_valid_index, out_index.
  destruct (index V) eqn:E; simpl; congruence.
Qed.

(** When some reservation has a type, the output has a row. *)
Lemma out_index_nonempty (R V : DataFrame) (tcol : list cell) (c : cell) :
  wf_frame R = true →
  get_col (columns R) "reservation_type" = Some tcol → c ∈ tcol →
  out_index R V ≠ [].
Proof.
  intros Hwf Hcol Hc. unfold out_index. destruct (index V); [|done].
  intros Hk%group_keys_nil_inv.
  apply (wf_frame_col _ _ _ Hwf) in Hcol. rewrite Hk in Hcol.
  destruct tcol; [by apply elem_of_nil in Hc|done].
Qed.

Lemma res_type_names :
  "res_type_" +:+ pretty 1 = "res_type_1" ∧
  "res_type_" +:+ pretty 2 = "res_type_2" ∧
  "res_type_" +:+ pretty 3 = "res_type_3".
Proof. by vm_compute. Qed.

Lemma ensure_valid_index_name (V : DataFrame) (s : Series) :
  index_name (ensure_valid_index V s)
  = match index V with [] => s_index_name s | _ :: _ => index_name V end.
Proof. unfold ensure_valid_index. by destruct (index V). Qed.

Lemma setitem_series_nonempty (df : DataFrame) (n : string) (s : Series) :
  index df ≠ [] →
  NoDup (s_index s) → length (s_values s) = length (s_index s) →
  setitem_series df n s =
    inr (mkDataFrame (index_name df) (index df)
           (set_col n (reindex s (index df)) (columns df))).
Proof.
  intros Hne Hnd Hlen. rewrite setitem_series_aligned by done.
  cbv zeta. by rewrite ensure_valid_index_nonempty.
Qed.

Lemma kept_columns (R V : DataFrame) (cols : list (string * list cell)) :
  (λ nc : string * list cell, (nc.1, fill_cell (Int 0) <$> nc.2))
    <$> ((λ nc : string * list cell, (nc.1, enlarge R V nc.2)) <$> cols)
  = (λ nc : string * list cell,
       (nc.1, (λ c, fill_cell (Int 0) <$> enlarge R V c) nc.2)) <$> cols.
Proof. rewrite <- list_fmap_compose. by apply list_fmap_ext. Qed.

(** A column that clean_data does not assign keeps its cells, zero-filled
    (on the rows of the output). *)
Lemma counted_kept (R V : DataFrame) (n : string) :
  n ∉ added_columns →
  get_col (counted R V) n
  = (λ c, fill_cell (Int 0) <$> enlarge R V c) <$> get_col (columns V) n.
Proof.
  intros Hn. unfold counted.
  rewrite !get_col_set_col_ne by (intros <-; apply Hn; vm_compute; set_solver).
  exact (get_col_fmap (λ c, fill_cell (Int 0) <$> enlarge R V c) _ n).
Qed.

Lemma run_stages_features (R V : DataFrame) (s : stages) :
  wf_frame R = true → run_stages R V s →
  accepts R V ∧ st_out s = features R V.
Proof.
  intros Hwf (E1 & E2 & E3 & E4 & E5 & E6 & E7 & E8 & E9).
  destruct s as [rtype G total V1 bt V2 a b out]; simpl in *.
  destruct (rtype_values R rtype G E1 E2) as (Hcol & Hsi & Hsn).
  destruct (grouped_frame R rtype G E1 E2) as [Hname _].
  pose proof (grouped_index R rtype G E1 E2) as HGi.
  pose proof (grouped_index_name R rtype G E1 E2) as HGn.
  pose proof (grouped_reservation R rtype G E1 E2 Hwf) as Hres.
  pose proof (grouped_res_type R rtype G E1 E2) as Htype.
  destruct res_type_names as (N1 & N2 & N3).
  pose proof (Htype 1 ltac:(set_solver)) as H1. rewrite N1 in H1.
  pose proof (Htype 2 ltac:(set_solver)) as H2. rewrite N2 in H2.
  pose proof (Htype 3 ltac:(set_solver)) as H3. rewrite N3 in H3.
  clear Htype N1 N2 N3.
  unfold getitem in E3. rewrite Hres, HGi, HGn in E3. simplify_eq.
  unfold getitem_list, res_types in E5.
  rewrite !filter_cons, filter_nil, H1, H2, H3, HGi, HGn in E5.
  destruct (existsb is_nan (s_values rtype)) eqn:Hnan; [done|].
  destruct (decide (Int 1 ∈ s_values rtype)) as [I1|]; [|done].
  destruct (decide (Int 2 ∈ s_values rtype)) as [I2|]; [|done].
  destruct (decide (Int 3 ∈ s_values rtype)) as [I3|]; [|done].
  simpl in E5. simplify_eq. rewrite H1, H2, H3 in E6.
  assert (out_index R V ≠ []) as Hne by (by eapply out_index_nonempty).
  rewrite setitem_series_aligned in E4
    by (simpl; apply NoDup_group_keys || by rewrite length_fmap).
  cbv zeta in E4.
  rewrite (ensure_valid_index_index R), (ensure_valid_index_columns R),
    ensure_valid_index_name in E4 by done.
  simpl s_index_name in E4. simplify_eq.
  unfold setitem_frame in E6. simpl in E6.
  do 3 (rewrite setitem_series_nonempty in E6
          by (simpl; done || apply NoDup_group_keys || by rewrite length_fmap);
        cbv beta iota in E6; simpl index in E6; simpl index_name in E6;
        simpl columns in E6).
  simplify_eq.
  unfold fillna in *. simpl index in *. simpl index_name in *.
  simpl columns in *.
  rewrite !(fmap_set_col (fmap (fill_cell (Int 0)))) in *.
  rewrite !fill_reindex_count in *
    by (intros; apply count_of_type_absent || apply count_reservations_absent;
        done).
  rewrite kept_columns in *.
  set (C := set_col "res_type_3" _ _) in *.
  assert (C = counted R V) as HC by reflexivity. clearbody C. subst C.
  unfold getitem in E7, E8. simpl columns in *.
  simpl index in *. simpl index_name in *.
  destruct (get_col (counted R V) "actual_price") as [ca|] eqn:Ha; [|done].
  destruct (get_col (counted R V) "recommended_price") as [cb|] eqn:Hb;
    [|done].
  simplify_eq.
  rewrite setitem_series_same in E9 by done. simplify_eq.
  split.
  - split; [exists (s_values rtype); repeat split; try done|split].
    + intros t Ht.
      assert (t = 1 ∨ t = 2 ∨ t = 3) as [->|[->| ->]] by set_solver; done.
    + rewrite counted_kept in Ha by (by vm_compute; set_solver).
      by apply fmap_Some in Ha as (c & -> & _).
    + rewrite counted_kept in Hb by (by vm_compute; set_solver).
      by apply fmap_Some in Hb as (c & -> & _).
  - unfold features. by rewrite Ha, Hb.
Qed.

(** Lines 21-30 on an accepted reservation table. *)
Lemma reservation_stages (R V : DataFrame) :
  wf_frame R = true → accepts_reservations R →
  ∃ rtype G total V1 by_type V2,
    getitem R "reservation_type" = inr rtype ∧
    groupby_sum
      (setitem_scalar (get_dummies rtype "res_type") "reservation" (Int 1))
      "vehicle_id" = inr G ∧
    getitem G "reservation" = inr total ∧
    setitem_series V "total_reservations" total = inr V1 ∧
    getitem_list G res_types = inr by_type ∧
    setitem_frame V1 res_types by_type = inr V2 ∧
    fillna (Int 0) V2 = after_fill R V ∧
    out_index R V ≠ [].
Proof.
  intros Hwf (tcol & Hcol & Hname & Hnan & Hall).
  set (rtype := mkSeries (index_name R) (index R) tcol).
  assert (getitem R "reservation_type" = inr rtype) as E1
    by (unfold getitem; by rewrite Hcol).
  destruct (groupby_sum
              (setitem_scalar (get_dummies rtype "res_type") "reservation"
                 (Int 1)) "vehicle_id") as [e|G] eqn:E2.
  { unfold groupby_sum in E2. simpl in E2.
    by rewrite Hname, decide_True in E2. }
  pose proof (grouped_index R rtype G E1 E2) as HGi.
  pose proof (grouped_index_name R rtype G E1 E2) as HGn.
  pose proof (grouped_reservation R rtype G E1 E2 Hwf) as Hres.
  pose proof (grouped_res_type R rtype G E1 E2) as Htype.
  destruct res_type_names as (N1 & N2 & N3).
  pose proof (Htype 1 ltac:(set_solver)) as H1. rewrite N1 in H1.
  pose proof (Htype 2 ltac:(set_solver)) as H2. rewrite N2 in H2.
  pose proof (Htype 3 ltac:(set_solver)) as H3. rewrite N3 in H3.
  clear Htype N1 N2 N3. simpl s_values in *.
  rewrite Hnan in *.
  rewrite decide_True in H1 by (apply Hall; set_solver).
  rewrite decide_True in H2 by (apply Hall; set_solver).
  rewrite decide_True in H3 by (apply Hall; set_solver).
  assert (out_index R V ≠ []) as Hne.
  { eapply out_index_nonempty; [done..|]. apply (Hall 1). set_solver. }
  exists rtype, G. do 4 eexists.
  split; [done|]. split; [done|].
  split. { unfold getitem. by rewrite Hres. }
  rewrite HGi, HGn.
  split.
  { rewrite setitem_series_aligned
      by (simpl; apply NoDup_group_keys || by rewrite length_fmap).
    cbv zeta.
    by rewrite (ensure_valid_index_index R), (ensure_valid_index_columns R),
      ensure_valid_index_name by done. }
  split.
  { unfold getitem_list, res_types.
    rewrite !filter_cons, filter_nil, H1, H2, H3, HGi, HGn. by simpl. }
  split.
  { unfold setitem_frame. simpl. rewrite H1, H2, H3. simpl default.
    do 3 (rewrite setitem_series_nonempty
            by (simpl; done || apply NoDup_group_keys
                || by rewrite length_fmap);
          cbv beta iota; simpl index; simpl index_name; simpl columns).
    done. }
  split; [|done].
  unfold fillna, after_fill. simpl index. simpl index_name. simpl columns.
  rewrite !(fmap_set_col (fmap (fill_cell (Int 0)))).
  rewrite !fill_reindex_count
    by (intros; apply count_of_type_absent || apply count_reservations_absent;
        done).
  by rewrite kept_columns.
Qed.

Lemma accepts_run_stages (R V : DataFrame) :
  wf_frame R = true → accepts R V → ∃ s, run_stages R V s.
Proof.
  intros Hwf (HR & [ca Ha] & [cb Hb]).
  destruct (reservation_stages R V Hwf HR)
    as (rtype & G & total & V1 & bt & V2
        & E1 & E2 & E3 & E4 & E5 & E6 & Hfill & Hne).
  eexists (mkStages rtype G total V1 bt V2 _ _ _).
  unfold run_stages. simpl. rewrite Hfill.
  do 6 (split; [done|]).
  unfold getitem, after_fill. simpl columns.
  rewrite !counted_kept by (by vm_compute; set_solver).
  rewrite Ha, Hb. simpl.
  split; [done|]. split; [done|].
  by rewrite setitem_series_same.
Qed.

(** With the reservation table accepted, a price column that is not there
    makes line 33 raise KeyError; lines 25-30 have already run. *)
Lemma reservation_stages_no_price (r v : loc) (h : heap) :
  wf_frame (h r) = true → accepts_reservations (h r) →
  get_col (columns (h v)) "actual_price" = None
  ∨ get_col (columns (h v)) "recommended_price" = None →
  ∃ n h',
    clean_data r v h = (inl (KeyError [n]), h') ∧
    n ∈ ["actual_price"; "recommended_price"] ∧
    get_col (columns (h v)) n = None ∧
    h' v = after_fill (h r) (h v).
Proof.
  intros Hwf HR Hnone.
  destruct (reservation_stages (h r) (h v) Hwf HR)
    as (rtype & G & total & V1 & bt & V2
        & E1 & E2 & E3 & E4 & E5 & E6 & Hfill & Hne).
  assert (∀ n, n ∈ ["actual_price"; "recommended_price"] →
            getitem (after_fill (h r) (h v)) n
            = match get_col (columns (h v)) n with
              | Some c =>
                  inr (mkSeries (index_name (after_fill (h r) (h v)))
                         (out_index (h r) (h v))
                         (fill_cell (Int 0) <$> enlarge (h r) (h v) c))
              | None => inl (KeyError [n])
              end) as Hget.
  { intros n Hn. unfold getitem. simpl columns.
    rewrite counted_kept
      by (intros Hc; assert (n = "actual_price" ∨ n = "recommended_price")
            as [->| ->] by set_solver; vm_compute in Hc; set_solver).
    by destruct (get_col (columns (h v)) n). }
  unfold clean_data, mbind, M_bind, lift, load, store.
  rewrite E1, E2, E3, E4, E5, !heap_lookup_insert, E6, !heap_lookup_insert,
    Hfill.
  rewrite !Hget by set_solver.
  destruct (get_col (columns (h v)) "actual_price") as [ca|] eqn:Ha.
  - destruct Hnone as [|Hb]; [done|]. rewrite Hb.
    exists "recommended_price". eexists.
    split; [done|]. split; [set_solver|]. split; [done|].
    by rewrite heap_lookup_insert.
  - exists "actual_price". eexists.
    split; [done|]. split; [set_solver|]. split; [done|].
    by rewrite heap_lookup_insert.
Qed.

(** ** clean_data on the store *)

(** What a call that returns leaves behind. *)
Lemma clean_data_returns (r v : loc) (h h' : heap) (l : loc) :
  wf_frame (h r) = true →
  clean_data r v h = (inr l, h') →
  accepts (h r) (h v) ∧ l = v ∧ h' v = features (h r) (h v) ∧
  ∀ l', l' ≠ v → h' l' = h l'.
Proof.
  intros Hwf (s & Hs & -> & Hv & Hframe)%clean_data_inr.
  destruct (run_stages_features _ _ _ Hwf Hs) as [Hacc Hout].
  by rewrite Hv, Hout.
Qed.

(** On the inputs it accepts, a call returns. *)
Lemma clean_data_accepts (r v : loc) (h : heap) :
  wf_frame (h r) = true → accepts (h r) (h v) →
  ∃ h', clean_data r v h = (inr v, h').
Proof.
  intros Hwf (s & Hs)%accepts_run_stages; [|done].
  eexists. by apply clean_data_run.
Qed.

(** Whatever the outcome, only the vehicle object is written. *)
Lemma clean_data_frame (r v : loc) (h h' : heap) (res : exn + loc) :
  clean_data r v h = (res, h') → ∀ l, l ≠ v → h' l = h l.
Proof.
  unfold clean_data, mbind, M_bind, lift, load, store, mret, M_ret.
  intros H l Hl.
  repeat match type of H with
         | context [match ?x with inl _ => _ | inr _ => _ end] => destruct x
         end;
    simplify_eq; by rewrite ?heap_lookup_insert_ne.
Qed.

(** An exception before line 25 leaves the store as it was. *)
Lemma clean_data_no_reservation_type (r v : loc) (h : heap) :
  get_col (columns (h r)) "reservation_type" = None →
  clean_data r v h = (inl (KeyError ["reservation_type"]), h).
Proof.
  intros H. unfold clean_data, mbind, M_bind, lift, load, getitem.
  by rewrite H.
Qed.

Lemma clean_data_wrong_level (r v : loc) (h : heap) (tcol : list cell) :
  get_col (columns (h r)) "reservation_type" = Some tcol →
  index_name (h r) ≠ "vehicle_id" →
  clean_data r v h
  = (inl (ValueError "level name is not the name of the index"), h).
Proof.
  intros H Hn. unfold clean_data, mbind, M_bind, lift, load, getitem.
  rewrite H. unfold groupby_sum. simpl. by rewrite decide_False.
Qed.

(** When a reservation type is not found among the grouped columns, line 27
    raises KeyError for the columns that are not there; line 25 has already
    run. *)
Lemma clean_data_missing_type (r v : loc) (h : heap) (tcol : list cell) :
  wf_frame (h r) = true →
  get_col (columns (h r)) "reservation_type" = Some tcol →
  index_name (h r) = "vehicle_id" →
  ¬ (existsb is_nan tcol = false ∧ ∀ t, t ∈ [1; 2; 3] → Int t ∈ tcol) →
  ∃ missing h',
    clean_data r v h = (inl (KeyError missing), h') ∧
    missing ≠ [] ∧
    (∀ t, t ∈ [1; 2; 3] →
       "res_type_" +:+ pretty t ∈ missing
       ↔ existsb is_nan tcol = true ∨ Int t ∉ tcol) ∧
    h' v = after_total (h r) (h v).
Proof.
  intros Hwf Hcol Hname Hbad.
  set (R := h r) in *. set (V := h v).
  set (rtype := mkSeries (index_name R) (index R) tcol).
  assert (getitem R "reservation_type" = inr rtype) as E1
    by (unfold getitem; by rewrite Hcol).
  destruct (groupby_sum
              (setitem_scalar (get_dummies rtype "res_type") "reservation"
                 (Int 1)) "vehicle_id") as [e|G] eqn:E2.
  { unfold groupby_sum in E2. simpl in E2.
    by rewrite Hname, decide_True in E2. }
  pose proof (grouped_index R rtype G E1 E2) as HGi.
  pose proof (grouped_index_name R rtype G E1 E2) as HGn.
  pose proof (grouped_reservation R rtype G E1 E2 Hwf) as Hres.
  pose proof (grouped_res_type R rtype G E1 E2) as Htype.
  simpl s_values in Htype.
  set (missing := filter (λ n, get_col (columns G) n = None) res_types).
  assert (∀ t, t ∈ [1; 2; 3] →
            "res_type_" +:+ pretty t ∈ missing
            ↔ existsb is_nan tcol = true ∨ Int t ∉ tcol) as Hmiss.
  { intros t Ht. unfold missing. rewrite list_elem_of_filter, (Htype t Ht).
    destruct (res_type_name t Ht) as [Hin _].
    destruct (existsb is_nan tcol); [naive_solver|].
    destruct (decide (Int t ∈ tcol)); naive_solver. }
  assert (missing ≠ []) as Hne.
  { intros Hnil. apply Hbad.
    assert (∀ t, t ∈ [1; 2; 3] →
              ¬ (existsb is_nan tcol = true ∨ Int t ∉ tcol)) as Hall.
    { intros t Ht Hc. apply (Hmiss t Ht) in Hc. rewrite Hnil in Hc.
      by apply elem_of_nil in Hc. }
    split.
    - specialize (Hall 1 ltac:(set_solver)).
      destruct (existsb is_nan tcol); naive_solver.
    - intros t Ht. specialize (Hall t Ht).
      destruct (decide (Int t ∈ tcol)); naive_solver. }
  exists missing. eexists. split; [|split; [done|split; [done|]]].
  - unfold clean_data, mbind, M_bind, lift, load, store.
    fold R. rewrite E1, E2. unfold getitem at 1. rewrite Hres, HGi, HGn.
    rewrite setitem_series_aligned
      by (simpl; apply NoDup_group_keys || by rewrite length_fmap).
    cbv zeta.
    rewrite (ensure_valid_index_index R), (ensure_valid_index_columns R),
      ensure_valid_index_name by done.
    unfold getitem_list. fold missing.
    destruct missing; [done|]. reflexivity.
  - rewrite heap_lookup_insert. unfold after_total. fold V. f_equal.
    f_equal. apply (reindex_fmap _ (λ k, Int (count_reservations k R))).
Qed.

(** ** The columns of the output *)

Section features.
Context (R V : DataFrame).

Lemma features_index : index (features R V) = out_index R V.
Proof. done. Qed.

Lemma out_index_vehicles : index V ≠ [] → out_index R V = index V.
Proof. unfold out_index. by destruct (index V). Qed.

Lemma enlarge_vehicles (c : list cell) : index V ≠ [] → enlarge R V c = c.
Proof. unfold enlarge. by destruct (index V). Qed.

Lemma features_total :
  get_col (columns (features R V)) "total_reservations"
  = Some ((λ k, Int (count_reservations k R)) <$> out_index R V).
Proof.
  unfold features, counted. simpl columns.
  rewrite !get_col_set_col_ne by done. apply get_col_set_col_eq.
Qed.

Lemma features_res_type (t : Z) :
  t ∈ [1; 2; 3] →
  get_col (columns (features R V)) ("res_type_" +:+ pretty t)
  = Some ((λ k, Int (count_of_type k t R)) <$> out_index R V).
Proof.
  intros Ht. destruct res_type_names as (N1 & N2 & N3).
  unfold features, counted. simpl columns.
  assert (t = 1 ∨ t = 2 ∨ t = 3) as [->|[->| ->]] by set_solver;
    rewrite ?N1, ?N2, ?N3;
    rewrite ?get_col_set_col_ne by done; apply get_col_set_col_eq.
Qed.

Lemma features_kept (n : string) :
  n ∉ added_columns →
  get_col (columns (features R V)) n
  = (λ c, fill_cell (Int 0) <$> enlarge R V c) <$> get_col (columns V) n.
Proof.
  intros Hn. unfold features. simpl columns.
  rewrite get_col_set_col_ne
    by (intros <-; apply Hn; vm_compute; set_solver).
  by apply counted_kept.
Qed.


Lemma features_names (n : string) :
  n ∈ col_names (features R V) ↔ n ∈ col_names V ∨ n ∈ added_columns.
Proof.
  unfold col_names, features, counted. simpl columns.
  rewrite !set_col_names.
  rewrite (fmap_names (λ c, fill_cell (Int 0) <$> enlarge R V c)).
  unfold added_columns, res_types. set_solver.
Qed.

(** Row [i] of the output, vehicle [k]. *)
Lemma features_total_at (i : nat) (k : Z) :
  out_index R V !! i = Some k →
  cell_at (features R V) "total_reservations" i
  = Some (Int (count_reservations k R)).
Proof.
  intros Hk. unfold cell_at. rewrite features_total. simpl.
  by rewrite list_lookup_fmap, Hk.
Qed.

Lemma features_res_type_at (t : Z) (i : nat) (k : Z) :
  t ∈ [1; 2; 3] → out_index R V !! i = Some k →
  cell_at (features R V) ("res_type_" +:+ pretty t) i
  = Some (Int (count_of_type k t R)).
Proof.
  intros Ht Hk. unfold cell_at. rewrite features_res_type by done. simpl.
  by rewrite list_lookup_fmap, Hk.
Qed.

End features.

(** ** Shape of the output *)

Lemma wf_set_col (n : nat) (name : string) (v : list cell)
    (cols : list (string * list cell)) :
  length v = n →
  forallb (λ nc, Nat.eqb (length nc.2) n) cols = true →
  forallb (λ nc, Nat.eqb (length nc.2) n) (set_col name v cols) = true.
Proof.
  intros Hv. induction cols as [|[m c] cols IH]; simpl.
  - intros _. rewrite andb_true_r. by apply Nat.eqb_eq.
  - intros [Hc Hcols]%andb_true_iff.
    destruct (decide (m = name)); simpl.
    + rewrite Hcols, andb_true_r. by apply Nat.eqb_eq.
    + by rewrite Hc, IH.
Qed.

Lemma features_wf (R V : DataFrame) :
  wf_frame V = true →
  is_Some (get_col (columns V) "actual_price") →
  is_Some (get_col (columns V) "recommended_price") →
  wf_frame (features R V) = true.
Proof.
  intros Hwf [ca Ha] [cb Hb].
  assert (∀ c, length c = length (index V) →
            length (fill_cell (Int 0) <$> enlarge R V c)
            = length (out_index R V)) as Hkept.
  { intros c Hc. rewrite length_fmap. unfold enlarge, out_index.
    destruct (index V); [by rewrite length_replicate|done]. }
  unfold wf_frame, features. simpl index. simpl columns.
  apply wf_set_col.
  { rewrite !counted_kept by (by vm_compute; set_solver).
    rewrite Ha, Hb. simpl. rewrite length_zip_with.
    rewrite !Hkept by (by eapply wf_frame_col). lia. }
  unfold counted. repeat (apply wf_set_col; [by rewrite length_fmap|]).
  unfold wf_frame in Hwf. rewrite forallb_forall in *.
  intros [n c] Hin. apply in_map_iff in Hin as ([n' c'] & [= <- <-] & Hin).
  simpl. apply Nat.eqb_eq, Hkept.
  specialize (Hwf _ Hin). by apply Nat.eqb_eq in Hwf.
Qed.

(** ** The example of the specification *)

(** C1, as stated: on the example of the specification the feature builder
    returns vehicle 1 with 3 reservations (2 of type A, 1 of type B, 0 of
    type C) and price difference 20, and vehicle 2 with no reservation and
    price difference -10.  It does not: no reservation of the example has
    type C, and the call raises. *)
Lemma C1_example_counterexample :
  ¬ (fst (example_run example_reservations example_vehicles)
       = inr 1%nat
     ∧ snd (example_run example_reservations example_vehicles) 1%nat
       = example_output).
Proof. intros [H _]. vm_compute in H. discriminate. Qed.

(** C1, amended: on the example as given, clean_data raises KeyError for
    the column res_type_3, after it has written the reservation totals
    into the vehicle table; when the reservation table also holds a
    reservation of type C (here one of a vehicle that is not in the vehicle
    table), it returns exactly the rows of the example. *)
Theorem C1_example :
  fst (example_run example_reservations example_vehicles)
    = inl (KeyError ["res_type_3"])
  ∧ snd (example_run example_reservations example_vehicles) 1%nat
    = after_total example_reservations example_vehicles
  ∧ fst (example_run example_reservations_C example_vehicles)
    = inr 1%nat
  ∧ snd (example_run example_reservations_C example_vehicles) 1%nat
    = example_output.
Proof. repeat split; by vm_compute. Qed.

(** ** Rows and counts *)

(** C2, as stated: whatever the vehicle table, the output has as many rows
    as it.  A vehicle table without rows takes the rows of the reservation
    aggregate when line 25 assigns the totals: here the output has the row
    of vehicle 1 although the vehicle table has none. *)
Lemma C2_row_count_counterexample :
  fst (example_run one_of_each no_vehicles)
    = inr 1%nat
  ∧ length (index (snd (example_run one_of_each no_vehicles) 1%nat))
    ≠ length (index no_vehicles).
Proof. split; by vm_compute. Qed.

(** C2, amended: for every vehicle table that has at least one row and
    every reservation table on which clean_data returns, the output has
    exactly the rows of the vehicle table, in their order (each vehicle
    once, also one without reservation), and each of its columns has one
    cell per row. *)
Theorem C2_row_count (r v : loc) (h h' : heap) (l : loc) :
  wf_frame (h r) = true → wf_frame (h v) = true → index (h v) ≠ [] →
  clean_data r v h = (inr l, h') →
  index (h' l) = index (h v) ∧
  length (index (h' l)) = length (index (h v)) ∧
  wf_frame (h' l) = true.
Proof.
  intros HwfR HwfV Hne Hrun.
  destruct (clean_data_returns _ _ _ _ _ HwfR Hrun)
    as ((_ & Ha & Hb) & -> & -> & _).
  rewrite features_index, out_index_vehicles by done.
  repeat split. by apply features_wf.
Qed.

Lemma C2_row_count_witness :
  index (snd (example_run example_reservations_C example_vehicles) 1%nat)
    = index (example_heap example_reservations_C example_vehicles 1%nat)
  ∧ length (index (snd (example_run example_reservations_C example_vehicles) 1%nat))
    = length (index (example_heap example_reservations_C example_vehicles
                       1%nat))
  ∧ wf_frame (snd (example_run example_reservations_C example_vehicles) 1%nat)
    = true.
Proof.
  apply (C2_row_count 0%nat 1%nat
           (example_heap example_reservations_C example_vehicles)).
  - reflexivity.
  - reflexivity.
  - vm_compute. discriminate.
  - vm_compute. reflexivity.
Defined.

(** The counts of a row of the output. *)
Lemma clean_data_counts (r v : loc) (h h' : heap) (l : loc)
    (i : nat) (k : Z) :
  wf_frame (h r) = true →
  clean_data r v h = (inr l, h') →
  index (h' l) !! i = Some k →
  cell_at (h' l) "total_reservations" i
    = Some (Int (count_reservations k (h r))) ∧
  cell_at (h' l) "res_type_1" i = Some (Int (count_of_type k 1 (h r))) ∧
  cell_at (h' l) "res_type_2" i = Some (Int (count_of_type k 2 (h r))) ∧
  cell_at (h' l) "res_type_3" i = Some (Int (count_of_type k 3 (h r))) ∧
  count_reservations k (h r)
    = count_of_type k 1 (h r) + count_of_type k 2 (h r)
      + count_of_type k 3 (h r) + count_other k (h r) ∧
  ∀ n, n ∈ col_names (h' l) → n ∈ col_names (h v) ∨ n ∈ added_columns.
Proof.
  intros HwfR Hrun.
  destruct (clean_data_returns _ _ _ _ _ HwfR Hrun) as (_ & -> & -> & _).
  rewrite features_index. intros Hk.
  destruct res_type_names as (N1 & N2 & N3).
  split; [by apply features_total_at|].
  split; [rewrite <- N1; apply features_res_type_at; [set_solver|done]|].
  split; [rewrite <- N2; apply features_res_type_at; [set_solver|done]|].
  split; [rewrite <- N3; apply features_res_type_at; [set_solver|done]|].
  split; [apply count_split|].
  intros n. by rewrite features_names.
Qed.

(** C3: for every vehicle of the output, total_reservations is the number
    of reservation records that reference it; this is the sum of its three
    per-type counts and of the number of its reservations of any other
    type.  Those other reservations are counted in the total only: the
    output has no column besides those of the vehicle table and the five
    that clean_data assigns. *)
Theorem C3_total_reservations (r v : loc) (h h' : heap) (l : loc)
    (i : nat) (k : Z) :
  wf_frame (h r) = true →
  clean_data r v h = (inr l, h') →
  index (h' l) !! i = Some k →
  cell_at (h' l) "total_reservations" i
    = Some (Int (count_reservations k (h r))) ∧
  cell_at (h' l) "res_type_1" i = Some (Int (count_of_type k 1 (h r))) ∧
  cell_at (h' l) "res_type_2" i = Some (Int (count_of_type k 2 (h r))) ∧
  cell_at (h' l) "res_type_3" i = Some (Int (count_of_type k 3 (h r))) ∧
  count_reservations k (h r)
    = count_of_type k 1 (h r) + count_of_type k 2 (h r)
      + count_of_type k 3 (h r) + count_other k (h r) ∧
  ∀ n, n ∈ col_names (h' l) → n ∈ col_names (h v) ∨ n ∈ added_columns.
Proof. apply clean_data_counts. Qed.

Lemma C3_total_reservations_witness :
  let h := example_heap mixed_reservations example_vehicles in
  let out := snd (example_run mixed_reservations example_vehicles) 1%nat in
  cell_at out "total_reservations" 0
    = Some (Int (count_reservations 1 (h 0%nat))) ∧
  cell_at out "res_type_1" 0 = Some (Int (count_of_type 1 1 (h 0%nat))) ∧
  cell_at out "res_type_2" 0 = Some (Int (count_of_type 1 2 (h 0%nat))) ∧
  cell_at out "res_type_3" 0 = Some (Int (count_of_type 1 3 (h 0%nat))) ∧
  count_reservations 1 (h 0%nat)
    = count_of_type 1 1 (h 0%nat) + count_of_type 1 2 (h 0%nat)
      + count_of_type 1 3 (h 0%nat) + count_other 1 (h 0%nat) ∧
  ∀ n, n ∈ col_names out → n ∈ col_names (h 1%nat) ∨ n ∈ added_columns.
Proof.
  apply (C3_total_reservations 0%nat 1%nat
           (example_heap mixed_reservations example_vehicles)
           (snd (example_run mixed_reservations example_vehicles)) 1%nat).
  - reflexivity.
  - vm_compute. reflexivity.
  - vm_compute. reflexivity.
Defined.

(** The counts of the witness: vehicle 1 has five reservations, two of
    type 1, one of type 2, one of type 3 and one of another type. *)
Example mixed_reservations_counts :
  count_reservations 1 mixed_reservations = 5 ∧
  count_of_type 1 1 mixed_reservations = 2 ∧
  count_of_type 1 2 mixed_reservations = 1 ∧
  count_of_type 1 3 mixed_reservations = 1 ∧
  count_other 1 mixed_reservations = 1.
Proof. repeat split; by vm_compute. Qed.

(** C5: a vehicle of the output that no reservation record references has
    0 in total_reservations and in each of the three per-type counts: the
    cells are there and hold the number 0, not a missing value. *)
Theorem C5_zero_counts (r v : loc) (h h' : heap) (l : loc)
    (i : nat) (k : Z) :
  wf_frame (h r) = true →
  clean_data r v h = (inr l, h') →
  index (h' l) !! i = Some k →
  count_reservations k (h r) = 0 →
  cell_at (h' l) "total_reservations" i = Some (Int 0) ∧
  cell_at (h' l) "res_type_1" i = Some (Int 0) ∧
  cell_at (h' l) "res_type_2" i = Some (Int 0) ∧
  cell_at (h' l) "res_type_3" i = Some (Int 0).
Proof.
  intros HwfR Hrun Hk Hzero.
  destruct (clean_data_counts _ _ _ _ _ _ _ HwfR Hrun Hk)
    as (Ht & H1 & H2 & H3 & Hsum & _).
  rewrite Hzero in Ht, Hsum.
  assert (count_of_type k 1 (h r) = 0 ∧ count_of_type k 2 (h r) = 0
          ∧ count_of_type k 3 (h r) = 0) as (Z1 & Z2 & Z3).
  { unfold count_of_type, count_other in *. lia. }
  by rewrite Ht, H1, H2, H3, Z1, Z2, Z3.
Qed.

Lemma C5_zero_counts_witness :
  let out := snd (example_run example_reservations_C example_vehicles) 1%nat in
  cell_at out "total_reservations" 1 = Some (Int 0) ∧
  cell_at out "res_type_1" 1 = Some (Int 0) ∧
  cell_at out "res_type_2" 1 = Some (Int 0) ∧
  cell_at out "res_type_3" 1 = Some (Int 0).
Proof.
  apply (C5_zero_counts 0%nat 1%nat
           (example_heap example_reservations_C example_vehicles)
           (snd (example_run example_reservations_C example_vehicles))
           1%nat 1%nat 2).
  - reflexivity.
  - vm_compute. reflexivity.
  - vm_compute. reflexivity.
  - vm_compute. reflexivity.
Defined.

(** ** Prices *)






(** ** Failures *)

(** C9: when one of the three reservation types occurs nowhere in the
    reservation table, clean_data does not return: line 27 raises KeyError
    for the per-type columns that get_dummies has not made, the column of
    that type among them; no column of zeros is made for it.  By then line
    25 has written the totals into the vehicle table. *)
Theorem C9_missing_category (r v : loc) (h : heap) (tcol : list cell)
    (t : Z) :
  wf_frame (h r) = true →
  get_col (columns (h r)) "reservation_type" = Some tcol →
  index_name (h r) = "vehicle_id" →
  t ∈ [1; 2; 3] → Int t ∉ tcol →
  ∃ missing h',
    clean_data r v h = (inl (KeyError missing), h') ∧
    "res_type_" +:+ pretty t ∈ missing ∧
    h' v = after_total (h r) (h v).
Proof.
  intros Hwf Hcol Hname Ht Habsent.
  destruct (clean_data_missing_type r v h tcol Hwf Hcol Hname)
    as (missing & h' & Hrun & _ & Hmiss & Hv).
  { intros [_ Hall]. by apply Habsent, Hall. }
  exists missing, h'. split; [done|]. split; [|done].
  apply Hmiss; [done|]. by right.
Qed.

Lemma C9_missing_category_witness :
  ∃ missing h',
    clean_data 0%nat 1%nat (example_heap example_reservations example_vehicles)
      = (inl (KeyError missing), h') ∧
    "res_type_" +:+ pretty 3 ∈ missing ∧
    h' 1%nat
      = after_total
          (example_heap example_reservations example_vehicles 0%nat)
          (example_heap example_reservations example_vehicles 1%nat).
Proof.
  apply (C9_missing_category 0%nat 1%nat
           (example_heap example_reservations example_vehicles)
           [Int 1; Int 1; Int 2] 3).
  - reflexivity.
  - reflexivity.
  - reflexivity.
  - vm_compute. set_solver.
  - vm_compute. set_solver.
Defined.

(** No exception of clean_data is a SchemaError. *)
Lemma exn_class_values (e : exn) :
  exn_class e = "KeyError" ∨ exn_class e = "ValueError".
Proof. destruct e; [by left|by right]. Qed.

(** C6, as stated: a reservation table without the column reservation_type
    makes clean_data fail with a SchemaError.  It fails with the KeyError
    of the column lookup. *)
Lemma C6_schema_error_counterexample :
  ¬ ∃ e, fst (example_run untyped_reservations example_vehicles) = inl e
         ∧ exn_class e = "SchemaError".
Proof. intros (e & H & He). vm_compute in H. by simplify_eq. Qed.

(** C6, amended: when the column reservation_type is absent from the
    reservation table, or actual_price or recommended_price from the
    vehicle table, clean_data fails, with an exception of Python (KeyError,
    or the ValueError of a grouping level that is not there).  The absent
    reservation_type raises KeyError for that column, and nothing has been
    written then; on a reservation table that is accepted, the absent price
    column raises KeyError for that column. *)
Theorem C6_missing_column (r v : loc) (h : heap) :
  wf_frame (h r) = true →
  get_col (columns (h r)) "reservation_type" = None
  ∨ get_col (columns (h v)) "actual_price" = None
  ∨ get_col (columns (h v)) "recommended_price" = None →
  ∃ e h',
    clean_data r v h = (inl e, h') ∧
    (exn_class e = "KeyError" ∨ exn_class e = "ValueError") ∧
    (get_col (columns (h r)) "reservation_type" = None →
     e = KeyError ["reservation_type"] ∧ h' = h) ∧
    (accepts_reservations (h r) →
     ∃ n, e = KeyError [n] ∧ n ∈ ["actual_price"; "recommended_price"]
          ∧ get_col (columns (h v)) n = None).
Proof.
  intros Hwf Habsent.
  destruct (clean_data r v h) as [[e|l] h'] eqn:Hrun.
  - exists e, h'. split; [done|]. split; [apply exn_class_values|]. split.
    + intros Hnone. rewrite clean_data_no_reservation_type in Hrun by done.
      by simplify_eq.
    + intros HR.
      destruct Habsent as [Hnone|Hprice].
      { destruct HR as (tcol & Hcol & _). congruence. }
      destruct (reservation_stages_no_price r v h Hwf HR Hprice)
        as (n & h'' & Hrun' & Hn & Hnone & _).
      exists n. split; [congruence|done].
  - destruct (clean_data_returns _ _ _ _ _ Hwf Hrun)
      as (((tcol & Hcol & _) & [ca Ha] & [cb Hb]) & _).
    destruct Habsent as [|[|]]; congruence.
Qed.

Lemma C6_missing_column_witness :
  ∃ e h',
    clean_data 0%nat 1%nat (example_heap untyped_reservations example_vehicles)
      = (inl e, h') ∧
    (exn_class e = "KeyError" ∨ exn_class e = "ValueError") ∧
    (get_col (columns (example_heap untyped_reservations example_vehicles
                         0%nat)) "reservation_type" = None →
     e = KeyError ["reservation_type"]
     ∧ h' = example_heap untyped_reservations example_vehicles) ∧
    (accepts_reservations
       (example_heap untyped_reservations example_vehicles 0%nat) →
     ∃ n, e = KeyError [n] ∧ n ∈ ["actual_price"; "recommended_price"]
          ∧ get_col (columns (example_heap untyped_reservations
                                example_vehicles 1%nat)) n = None).
Proof.
  apply (C6_missing_column 0%nat 1%nat
           (example_heap untyped_reservations example_vehicles)).
  - reflexivity.
  - left. reflexivity.
Defined.

(** ** Effects on the store *)

(** C8, as stated: the call leaves both tables as they were.  It leaves
    the reservation table; the vehicle table it updates in place. *)
Lemma C8_inputs_unchanged_counterexample :
  ¬ (snd (example_run example_reservations_C example_vehicles) 0%nat
       = example_heap example_reservations_C example_vehicles 0%nat
     ∧ snd (example_run example_reservations_C example_vehicles) 1%nat
       = example_heap example_reservations_C example_vehicles 1%nat).
Proof. intros [_ H]. vm_compute in H. discriminate. Qed.

(** C8, amended: whether a call returns or raises, it writes one object of
    the store, the vehicle table; the reservation table (when it is
    another object) and every other object are left as they were.  A call
    that returns gives back the reference of the vehicle table itself, and
    that object now holds the output.  The monad of the model has a store
    and exceptions and nothing else: there is no input or output. *)
Theorem C8_effects (r v : loc) (h h' : heap) (res : exn + loc) :
  wf_frame (h r) = true → r ≠ v →
  clean_data r v h = (res, h') →
  h' r = h r ∧
  (∀ l, l ≠ v → h' l = h l) ∧
  match res with
  | inr l => l = v ∧ h' v = features (h r) (h v)
  | inl _ => True
  end.
Proof.
  intros Hwf Hrv Hrun.
  pose proof (clean_data_frame _ _ _ _ _ Hrun) as Hframe.
  split; [by apply Hframe|]. split; [done|].
  destruct res as [e|l]; [done|].
  by destruct (clean_data_returns _ _ _ _ _ Hwf Hrun) as (_ & -> & -> & _).
Qed.

Lemma C8_effects_witness :
  let h := example_heap example_reservations_C example_vehicles in
  let h' := snd (example_run example_reservations_C example_vehicles) in
  h' 0%nat = h 0%nat ∧
  (∀ l, l ≠ 1%nat → h' l = h l) ∧
  (1%nat = 1%nat ∧ h' 1%nat = features (h 0%nat) (h 1%nat)).
Proof.
  apply (C8_effects 0%nat 1%nat
           (example_heap example_reservations_C example_vehicles)
           (snd (example_run example_reservations_C example_vehicles))
           (inr 1%nat)).
  - reflexivity.
  - vm_compute. discriminate.
  - vm_compute. reflexivity.
Defined.

(** ** Orphan reservations *)

Section orphans.
Context (keep : Z → bool).

Lemma select_zip (idx : list Z) (c : list cell) :
  length c = length idx →
  zip (filter (λ k, keep k = true) idx)
      (filter (λ p : Z * cell, keep p.1 = true) (zip idx c)).*2
  = filter (λ p : Z * cell, keep p.1 = true) (zip idx c).
Proof.
  revert c. induction idx as [|i idx IH]; intros [|x c] Hlen; try done.
  simpl in Hlen. simpl. rewrite !filter_cons. simpl.
  destruct (decide (keep i = true)); csimpl; rewrite IH by lia; done.
Qed.

Lemma select_length (idx : list Z) (c : list cell) :
  length c = length idx →
  length (filter (λ p : Z * cell, keep p.1 = true) (zip idx c)).*2
  = length (filter (λ k, keep k = true) idx).
Proof.
  revert c. induction idx as [|i idx IH]; intros [|x c] Hlen; try done.
  simpl in Hlen. simpl. rewrite !filter_cons. simpl.
  destruct (decide (keep i = true)); csimpl; rewrite IH by lia; done.
Qed.

Lemma select_rows_col (R : DataFrame) (n : string) :
  get_col (columns (select_rows keep R)) n
  = (λ c, (filter (λ p : Z * cell, keep p.1 = true) (zip (index R) c)).*2)
    <$> get_col (columns R) n.
Proof.
  exact (get_col_fmap
           (λ c, (filter (λ p : Z * cell, keep p.1 = true)
                    (zip (index R) c)).*2) _ n).
Qed.

Lemma select_rows_reservations (R : DataFrame) :
  wf_frame R = true →
  reservations (select_rows keep R)
  = filter (λ p : Z * cell, keep p.1 = true) (reservations R).
Proof.
  intros Hwf. unfold reservations. rewrite select_rows_col. simpl index.
  destruct (get_col (columns R) "reservation_type") as [c|] eqn:Hc; simpl.
  - apply select_zip. by eapply wf_frame_col.
  - rewrite !zip_with_nil_r. done.
Qed.

Lemma select_rows_wf (R : DataFrame) :
  wf_frame R = true → wf_frame (select_rows keep R) = true.
Proof.
  unfold wf_frame. rewrite !forallb_forall. simpl. intros Hwf [n c] Hin.
  apply in_map_iff in Hin as ([n' c'] & [= <- <-] & Hin). simpl.
  apply Nat.eqb_eq, select_length.
  specialize (Hwf _ Hin). by apply Nat.eqb_eq in Hwf.
Qed.

(** The reservations of a vehicle that is kept are all kept. *)
Lemma select_filter (k : Z) (P : Z * cell → Prop) `{∀ p, Decision (P p)}
    (l : list (Z * cell)) :
  keep k = true →
  filter (λ p, p.1 = k ∧ P p)
    (filter (λ p : Z * cell, keep p.1 = true) l)
  = filter (λ p, p.1 = k ∧ P p) l.
Proof.
  intros Hk. induction l as [|[i x] l IH]; [done|].
  rewrite !filter_cons. simpl.
  destruct (decide (keep i = true)) as [Hi|Hi].
  - rewrite filter_cons. simpl. by rewrite IH.
  - rewrite IH. rewrite decide_False; [done|].
    intros [-> _]. done.
Qed.
End orphans.

Lemma without_orphans_counts (V R : DataFrame) (k : Z) :
  wf_frame R = true → k ∈ index V →
  count_reservations k (without_orphans V R) = count_reservations k R ∧
  ∀ t, count_of_type k t (without_orphans V R) = count_of_type k t R.
Proof.
  intros Hwf Hk.
  assert (bool_decide (k ∈ index V) = true) as Hkeep
    by by apply bool_decide_eq_true.
  unfold count_reservations, count_of_type, without_orphans.
  rewrite select_rows_reservations by done. split.
  - pose proof (select_filter (λ k, bool_decide (k ∈ index V)) k
                  (λ _, True) (reservations R) Hkeep) as Hf.
    assert (∀ l : list (Z * cell),
              filter (λ p, p.1 = k) l = filter (λ p, p.1 = k ∧ True) l)
      as Heq by (intros; apply list_filter_iff; naive_solver).
    by rewrite !Heq, Hf.
  - intros t.
    by rewrite (select_filter (λ k, bool_decide (k ∈ index V)) k
                  (λ p, p.2 = Int t) (reservations R) Hkeep).
Qed.

(** On a vehicle table that has rows, the output depends on the
    reservation table through the counts of its vehicles only. *)
Lemma features_ext (R R' V : DataFrame) :
  index V ≠ [] →
  (∀ k, k ∈ index V →
     count_reservations k R' = count_reservations k R ∧
     ∀ t, count_of_type k t R' = count_of_type k t R) →
  features R' V = features R V.
Proof.
  intros Hne Hcount.
  assert (counted R' V = counted R V) as Hc.
  { unfold counted. rewrite !out_index_vehicles by done.
    assert (∀ f g : Z → Z, (∀ k, k ∈ index V → f k = g k) →
              (λ k, Int (f k)) <$> index V = (λ k, Int (g k)) <$> index V)
      as Hext.
    { intros f g Hfg. apply list_fmap_ext. intros i k Hk. f_equal.
      apply Hfg. by eapply list_elem_of_lookup_2. }
    rewrite (Hext (λ k, count_of_type k 3 R') (λ k, count_of_type k 3 R))
      by (intros; by apply Hcount).
    rewrite (Hext (λ k, count_of_type k 2 R') (λ k, count_of_type k 2 R))
      by (intros; by apply Hcount).
    rewrite (Hext (λ k, count_of_type k 1 R') (λ k, count_of_type k 1 R))
      by (intros; by apply Hcount).
    rewrite (Hext (λ k, count_reservations k R')
               (λ k, count_reservations k R))
      by (intros; by apply Hcount).
    do 4 f_equal. apply list_fmap_ext. intros i [n c] _. simpl.
    by rewrite !enlarge_vehicles. }
  unfold features. by rewrite Hc, !out_index_vehicles.
Qed.

Lemma existsb_is_nan (tcol : list cell) :
  NaN ∉ tcol → existsb is_nan tcol = false.
Proof.
  induction tcol as [|[|z] tcol IH]; simpl; [done| |].
  - intros H. exfalso. apply H. by left.
  - intros H. apply IH. intros Hin. apply H. by right.
Qed.

(** A reservation table is accepted when it is accepted without its
    orphans, provided no reservation lacks its type. *)
Lemma accepts_with_orphans (V R : DataFrame) (tcol : list cell) :
  get_col (columns R) "reservation_type" = Some tcol → NaN ∉ tcol →
  accepts_reservations (without_orphans V R) → accepts_reservations R.
Proof.
  intros Hcol Hnan (tcol' & Hcol' & Hname & _ & Hall).
  exists tcol. split; [done|]. split; [done|].
  split; [by apply existsb_is_nan|].
  intros t Ht. specialize (Hall t Ht).
  unfold without_orphans in Hcol'. rewrite select_rows_col, Hcol in Hcol'.
  simpl in Hcol'. simplify_eq.
  apply list_elem_of_fmap in Hall as ([k x] & -> & Hin).
  apply list_elem_of_filter in Hin as [_ Hin].
  by apply elem_of_zip_r in Hin.
Qed.

(** C7, as stated: a reservation of a vehicle that the vehicle table does
    not have is left out of the output.  When the vehicle table has no row
    at all, every reservation is of this kind, and the output is made of
    them: here vehicle 1 comes out with its three reservations. *)
Lemma C7_orphans_counterexample :
  (∀ p, p ∈ reservations one_of_each → p.1 ∉ index no_vehicles)
  ∧ fst (example_run one_of_each no_vehicles) = inr 1%nat
  ∧ index (snd (example_run one_of_each no_vehicles) 1%nat) = [1]
  ∧ cell_at (snd (example_run one_of_each no_vehicles) 1%nat)
      "total_reservations" 0 = Some (Int 3).
Proof.
  split; [|repeat split; by vm_compute].
  intros p _. simpl. apply not_elem_of_nil.
Qed.

(** C7, amended: when the vehicle table has at least one row and every
    reservation has its type, the reservations of vehicles that are not in
    the vehicle table change nothing: if clean_data returns on the
    reservation table without them, it returns on the whole table, with
    the same output. *)
Theorem C7_orphans (r v : loc) (h h1 : heap) (l : loc) (tcol : list cell) :
  wf_frame (h r) = true → r ≠ v → index (h v) ≠ [] →
  get_col (columns (h r)) "reservation_type" = Some tcol → NaN ∉ tcol →
  clean_data r v (<[r := without_orphans (h v) (h r)]> h) = (inr l, h1) →
  ∃ h2, clean_data r v h = (inr l, h2) ∧ h2 v = h1 v.
Proof.
  intros Hwf Hrv Hne Hcol Hnan Hrun.
  apply clean_data_returns in Hrun;
    rewrite ?heap_lookup_insert, ?heap_lookup_insert_ne in * by done;
    [|by apply select_rows_wf].
  destruct Hrun as ((HR & Ha & Hb) & -> & Hout & _).
  assert (accepts (h r) (h v)) as Hacc.
  { split; [|done]. by eapply accepts_with_orphans. }
  destruct (clean_data_accepts r v h Hwf Hacc) as [h2 Hrun2].
  exists h2. split; [done|].
  destruct (clean_data_returns _ _ _ _ _ Hwf Hrun2) as (_ & _ & -> & _).
  rewrite Hout. symmetry. apply features_ext; [done|].
  intros k Hk. by apply without_orphans_counts.
Qed.

Lemma C7_orphans_witness :
  let h := example_heap orphan_reservations example_vehicles in
  ∃ h2, clean_data 0%nat 1%nat h = (inr 1%nat, h2) ∧
        h2 1%nat
        = snd (clean_data 0%nat 1%nat
                 (<[0%nat := without_orphans (h 1%nat) (h 0%nat)]> h)) 1%nat.
Proof.
  apply (C7_orphans 0%nat 1%nat
           (example_heap orphan_reservations example_vehicles)
           (snd (clean_data 0%nat 1%nat
                   (<[0%nat := without_orphans example_vehicles
                                 orphan_reservations]>
                      (example_heap orphan_reservations
                         example_vehicles))))
           1%nat [Int 1; Int 2; Int 2; Int 3]).
  - reflexivity.
  - vm_compute. discriminate.
  - vm_compute. discriminate.
  - reflexivity.
  - vm_compute. set_solver.
  - vm_compute. reflexivity.
Defined.

(** * Further properties of clean_data *)

(** ** When a call returns *)



(** ** No missing value in the output *)

Lemma fill_cell_not_nan (c : cell) : fill_cell (Int 0) c ≠ NaN.
Proof. by destruct c. Qed.

Lemma get_col_elem_of (cols : list (string * list cell)) (n : string)
    (c : list cell) :
  get_col cols n = Some c → (n, c) ∈ cols.
Proof.
  induction cols as [|[m c'] cols IH]; simpl; [done|].
  destruct (decide (m = n)) as [->|]; [intros [= ->]; by left|].
  intros H. right. by apply IH.
Qed.

Lemma elem_of_set_col (n : string) (v : list cell)
    (cols : list (string * list cell)) (nc : string * list cell) :
  nc ∈ set_col n v cols → nc = (n, v) ∨ nc ∈ cols.
Proof.
  induction cols as [|[m c] cols IH]; simpl.
  - intros ->%list_elem_of_singleton. by left.
  - destruct (decide (m = n)) as [->|].
    + intros [->|H]%elem_of_cons; [by left|]. right. by right.
    + intros [->|H]%elem_of_cons; [right; by left|].
      destruct (IH H) as [->|H']; [by left|]. right. by right.
Qed.

Lemma counted_no_nan (R V : DataFrame) (nc : string * list cell) :
  nc ∈ counted R V → NaN ∉ nc.2.
Proof.
  unfold counted. intros H.
  repeat (apply elem_of_set_col in H as [->|H];
          [simpl; by intros (k & ? & _)%list_elem_of_fmap|]).
  apply list_elem_of_fmap in H as ([n c] & -> & _). simpl.
  intros (x & Hx & _)%list_elem_of_fmap. by destruct x.
Qed.

Lemma features_no_nan (R V : DataFrame) (nc : string * list cell) :
  nc ∈ columns (features R V) → NaN ∉ nc.2.
Proof.
  unfold features. simpl columns.
  intros [->|H]%elem_of_set_col; [|by eapply counted_no_nan].
  simpl. intros Hnan.
  apply list_elem_of_lookup in Hnan as [i Hi].
  apply lookup_zip_with_Some in Hi as (a & b & Hsub & Ha & Hb).
  assert (∀ n x, default [] (get_col (counted R V) n) !! i = Some x →
            x ≠ NaN) as Hnn.
  { intros n x Hx Hxn.
    destruct (get_col (counted R V) n) as [c|] eqn:Hc; [|done].
    apply get_col_elem_of, counted_no_nan in Hc. apply Hc. simpl in *.
    subst x. by eapply list_elem_of_lookup_2. }
  apply Hnn in Ha, Hb. by destruct a, b.
Qed.



(** ** The order of the columns *)

Lemma set_col_names_eq (n : string) (v : list cell)
    (cols : list (string * list cell)) :
  (set_col n v cols).*1
  = if decide (n ∈ cols.*1) then cols.*1 else cols.*1 ++ [n].
Proof.
  induction cols as [|[m c] cols IH]; csimpl; [done|].
  destruct (decide (m = n)) as [->|Hne]; csimpl.
  - by rewrite decide_True by set_solver.
  - rewrite IH. destruct (decide (n ∈ cols.*1)).
    + by rewrite decide_True by set_solver.
    + by rewrite decide_False by set_solver.
Qed.

Lemma set_col_names_step (L ns : list string) (n : string) (v : list cell)
    (cols : list (string * list cell)) :
  cols.*1 = L ++ filter (λ m, m ∉ L) ns → n ∉ ns →
  (set_col n v cols).*1 = L ++ filter (λ m, m ∉ L) (ns ++ [n]).
Proof.
  intros Hcols Hn. rewrite set_col_names_eq, Hcols, list.filter_app.
  rewrite filter_cons, filter_nil.
  destruct (decide (n ∈ L)) as [HL|HL].
  - rewrite decide_True by set_solver.
    rewrite decide_False by (intros H; by apply H).
    by rewrite app_nil_r.
  - rewrite decide_False.
    + rewrite decide_True by done. by rewrite app_assoc.
    + rewrite elem_of_app, list_elem_of_filter. naive_solver.
Qed.

Lemma features_col_names (R V : DataFrame) :
  col_names (features R V)
  = col_names V ++ filter (λ n, n ∉ col_names V) added_columns.
Proof.
  unfold col_names, features, counted. simpl columns.
  assert (added_columns
          = ((((nil ++ ["total_reservations"]) ++ ["res_type_1"])
                ++ ["res_type_2"]) ++ ["res_type_3"]) ++ ["price_difference"])
    as -> by reflexivity.
  repeat (apply set_col_names_step; [|set_solver]).
  rewrite (fmap_names (λ c, fill_cell (Int 0) <$> enlarge R V c)).
  by rewrite filter_nil, app_nil_r.
Qed.

(** X4: in the table a call returns, the columns of the vehicle table
    stand first, in their order, and after them stand those columns among
    total_reservations, res_type_1, res_type_2, res_type_3 and
    price_difference, in this order, that the vehicle table did not have
    (one it had keeps its place and takes the new cells). *)
Theorem X4_column_order (r v : loc) (h h' : heap) (l : loc) :
  wf_frame (h r) = true →
  clean_data r v h = (inr l, h') →
  col_names (h' l)
  = col_names (h v) ++ filter (λ n, n ∉ col_names (h v)) added_columns.
Proof.
  intros Hwf Hrun.
  destruct (clean_data_returns _ _ _ _ _ Hwf Hrun) as (_ & -> & -> & _).
  apply features_col_names.
Qed.

Lemma X4_column_order_witness :
  col_names (snd (example_run example_reservations_C unpriced_vehicles) 1%nat)
  = col_names (example_heap example_reservations_C unpriced_vehicles 1%nat)
    ++ filter (λ n, n ∉ col_names (example_heap example_reservations_C
                                      unpriced_vehicles 1%nat))
         added_columns.
Proof.
  apply (X4_column_order 0%nat 1%nat
           (example_heap example_reservations_C unpriced_vehicles)
           (snd (example_run example_reservations_C unpriced_vehicles))
           1%nat).
  - reflexivity.
  - vm_compute. reflexivity.
Defined.

(** ** A second call *)

Lemma set_col_same (n : string) (v : list cell)
    (cols : list (string * list cell)) :
  get_col cols n = Some v → set_col n v cols = cols.
Proof.
  induction cols as [|[m c] cols IH]; simpl; [done|].
  destruct (decide (m = n)) as [->|]; [by intros [= ->]|].
  intros H. by rewrite IH.
Qed.

Lemma fill_no_nan (c : list cell) :
  NaN ∉ c → fill_cell (Int 0) <$> c = c.
Proof.
  induction c as [|x c IH]; [done|]. intros H. csimpl.
  rewrite IH by set_solver. destruct x; [|done].
  exfalso. apply H. by left.
Qed.

(** The output of clean_data is a fixed point of clean_data. *)
Lemma features_idempotent (R V : DataFrame) :
  out_index R V ≠ [] → features R (features R V) = features R V.
Proof.
  intros Hne. set (F := features R V).
  assert (index F ≠ []) as HF by done.
  assert (out_index R F = out_index R V) as Hidx
    by by rewrite out_index_vehicles.
  assert (counted R F = columns F) as Hc.
  { unfold counted. rewrite Hidx.
    assert ((λ nc : string * list cell,
               (nc.1, (λ c, fill_cell (Int 0) <$> enlarge R F c) nc.2))
              <$> columns F = columns F) as ->.
    { rewrite <- (list_fmap_id (columns F)) at 2.
      apply list_fmap_ext. intros i [n c] Hi. simpl.
      rewrite enlarge_vehicles by done. f_equal.
      apply fill_no_nan.
      apply (features_no_nan R V (n, c)). by eapply list_elem_of_lookup_2. }
    destruct res_type_names as (N1 & N2 & N3).
    rewrite (set_col_same "total_reservations") by apply features_total.
    rewrite (set_col_same "res_type_1")
      by (rewrite <- N1; apply features_res_type; set_solver).
    rewrite (set_col_same "res_type_2")
      by (rewrite <- N2; apply features_res_type; set_solver).
    by rewrite (set_col_same "res_type_3")
      by (rewrite <- N3; apply features_res_type; set_solver). }
  unfold features at 1. rewrite Hc, Hidx.
  assert (match index F with [] => "vehicle_id" | _ :: _ => index_name F end
          = index_name F) as -> by by destruct (index F).
  subst F.
  assert (∀ n, n ≠ "price_difference" →
            get_col (columns (features R V)) n = get_col (counted R V) n)
    as Hget by (intros n Hn; by apply get_col_set_col_ne).
  rewrite !Hget by done. rewrite set_col_same; [done|].
  apply get_col_set_col_eq.
Qed.

(** X2: a second call of clean_data on the store that a first call has
    left returns as well, and changes nothing: the output of the first
    call is the output of the second. *)
Theorem X2_second_call (r v : loc) (h h1 : heap) (l : loc) :
  wf_frame (h r) = true → r ≠ v →
  clean_data r v h = (inr l, h1) →
  ∃ h2, clean_data r v h1 = (inr l, h2) ∧ ∀ l', h2 l' = h1 l'.
Proof.
  intros Hwf Hrv Hrun.
  destruct (clean_data_returns _ _ _ _ _ Hwf Hrun)
    as ((HR & [ca Ha] & [cb Hb]) & -> & Hv & Hframe).
  assert (h1 r = h r) as Hr by by apply Hframe.
  assert (out_index (h r) (h v) ≠ []) as Hne.
  { destruct HR as (tcol & Hcol & _ & _ & Hall).
    eapply out_index_nonempty; [done..|]. apply (Hall 1). set_solver. }
  assert (accepts (h1 r) (h1 v)) as Hacc.
  { rewrite Hr, Hv. split; [done|].
    unfold features. simpl columns.
    rewrite !(get_col_set_col_ne _ "price_difference") by done.
    rewrite !counted_kept by (by vm_compute; set_solver).
    by rewrite Ha, Hb. }
  destruct (clean_data_accepts r v h1) as [h2 Hrun2];
    [by rewrite Hr|done|].
  exists h2. split; [done|]. intros l'.
  destruct (clean_data_returns r v h1 h2 v) as (_ & _ & Hv2 & Hframe2);
    [by rewrite Hr|done|].
  destruct (decide (l' = v)) as [->|Hl']; [|by apply Hframe2].
  by rewrite Hv2, Hr, Hv, features_idempotent.
Qed.

Lemma X2_second_call_witness :
  ∃ h2, clean_data 0%nat 1%nat
          (snd (example_run example_reservations_C example_vehicles))
        = (inr 1%nat, h2)
        ∧ ∀ l', h2 l'
                = snd (example_run example_reservations_C example_vehicles) l'.
Proof.
  apply (X2_second_call 0%nat 1%nat
           (example_heap example_reservations_C example_vehicles)).
  - reflexivity.
  - vm_compute. discriminate.
  - vm_compute. reflexivity.
Defined.


(** ** The totals add up *)

Lemma count_in_cons (i : Z) (idx : list Z) (res : list (Z * cell)) :
  i ∉ idx →
  length (filter (λ p, p.1 ∈ i :: idx) res)
  = (length (filter (λ p, p.1 = i) res)
     + length (filter (λ p, p.1 ∈ idx) res))%nat.
Proof.
  intros Hi. induction res as [|[k x] res IH]; [done|].
  rewrite !filter_cons. simpl.
  destruct (decide (k = i)) as [->|Hne].
  - rewrite decide_True by set_solver. rewrite decide_False by done.
    simpl. by rewrite IH.
  - destruct (decide (k ∈ idx)).
    + rewrite decide_True by set_solver. simpl. rewrite IH. lia.
    + rewrite decide_False by set_solver. done.
Qed.

Lemma col_sum_counts (idx : list Z) (res : list (Z * cell)) :
  NoDup idx →
  col_sum ((λ k, Int (Z.of_nat (length (filter (λ p, p.1 = k) res))))
             <$> idx)
  = Z.of_nat (length (filter (λ p, p.1 ∈ idx) res)).
Proof.
  induction idx as [|i idx IH]; intros Hnd.
  - csimpl. induction res as [|p res IHres]; [done|].
    rewrite filter_cons. by rewrite decide_False by set_solver.
  - csimpl. rewrite count_in_cons by by apply NoDup_cons_1_1 in Hnd.
    rewrite IH by by apply NoDup_cons_1_2 in Hnd. lia.
Qed.

(** X5: when the vehicles of the output are pairwise distinct, the cells
    of total_reservations add up to the number of reservation records that
    reference a vehicle of the output: every such record is counted, and
    counted once. *)
Theorem X5_totals_add_up (r v : loc) (h h' : heap) (l : loc)
    (c : list cell) :
  wf_frame (h r) = true →
  clean_data r v h = (inr l, h') →
  NoDup (index (h' l)) →
  get_col (columns (h' l)) "total_reservations" = Some c →
  col_sum c
  = Z.of_nat (length (filter (λ p, p.1 ∈ index (h' l))
                        (reservations (h r)))).
Proof.
  intros Hwf Hrun.
  destruct (clean_data_returns _ _ _ _ _ Hwf Hrun) as (_ & -> & -> & _).
  rewrite features_index, features_total. intros Hnd [= <-].
  by apply col_sum_counts.
Qed.

Lemma X5_totals_add_up_witness :
  col_sum [Int 3; Int 0]
  = Z.of_nat
      (length
         (filter (λ p, p.1 ∈ index (snd (example_run orphan_reservations
                                           example_vehicles) 1%nat))
            (reservations
               (example_heap orphan_reservations example_vehicles 0%nat)))).
Proof.
  apply (X5_totals_add_up 0%nat 1%nat
           (example_heap orphan_reservations example_vehicles)
           (snd (example_run orphan_reservations example_vehicles))
           1%nat [Int 3; Int 0]).
  - reflexivity.
  - vm_compute. reflexivity.
  - vm_compute. repeat constructor; set_solver.
  - vm_compute. reflexivity.
Defined.

(** X6: in every row of the output, each per-type count lies between 0
    and the total of the row. *)
Theorem X6_count_bounds (r v : loc) (h h' : heap) (l : loc)
    (n : string) (i : nat) (x t : Z) :
  wf_frame (h r) = true →
  clean_data r v h = (inr l, h') →
  n ∈ res_types →
  cell_at (h' l) n i = Some (Int x) →
  cell_at (h' l) "total_reservations" i = Some (Int t) →
  0 ≤ x ≤ t.
Proof.
  intros Hwf Hrun Hn Hx Ht.
  destruct (lookup_lt_is_Some_2 (index (h' l)) i) as [k Hk].
  { destruct (clean_data_returns _ _ _ _ _ Hwf Hrun) as (_ & -> & Hout & _).
    rewrite Hout, features_index. rewrite Hout in Ht.
    unfold cell_at in Ht. rewrite features_total in Ht. simpl in Ht.
    apply lookup_lt_Some in Ht. by rewrite length_fmap in Ht. }
  destruct (clean_data_counts _ _ _ _ _ _ _ Hwf Hrun Hk)
    as (Ht' & H1 & H2 & H3 & Hsum & _).
  assert (t = count_reservations k (h r)) as -> by congruence.
  rewrite Hsum. unfold count_of_type, count_other in *.
  assert (n = "res_type_1" ∨ n = "res_type_2" ∨ n = "res_type_3")
    as [->|[->| ->]] by (unfold res_types in Hn; set_solver);
    simplify_eq; lia.
Qed.

Lemma X6_count_bounds_witness :
  cell_at (snd (example_run mixed_reservations example_vehicles) 1%nat)
    "res_type_1" 0 = Some (Int 2)
  ∧ 0 ≤ 2 ≤ 5.
Proof.
  split; [vm_compute; reflexivity|].
  apply (X6_count_bounds 0%nat 1%nat
           (example_heap mixed_reservations example_vehicles)
           (snd (example_run mixed_reservations example_vehicles))
           1%nat "res_type_1" 0%nat 2 5).
  - reflexivity.
  - vm_compute. reflexivity.
  - vm_compute. set_solver.
  - vm_compute. reflexivity.
  - vm_compute. reflexivity.
Defined.

(** ** The order of the reservation records *)

Lemma reservations_columns (R : DataFrame) (tcol : list cell) :
  wf_frame R = true →
  get_col (columns R) "reservation_type" = Some tcol →
  (reservations R).*1 = index R ∧ (reservations R).*2 = tcol.
Proof.
  intros Hwf Hcol. unfold reservations. rewrite Hcol. simpl.
  pose proof (wf_frame_col _ _ _ Hwf Hcol) as Hlen.
  split; [apply fst_zip|apply snd_zip]; lia.
Qed.

Lemma existsb_is_nan_inv (tcol : list cell) :
  existsb is_nan tcol = false → NaN ∉ tcol.
Proof.
  induction tcol as [|[|z] tcol IH]; simpl; [set_solver|done|].
  intros H. specialize (IH H). set_solver.
Qed.

Lemma group_keys_Permutation (idx idx' : list Z) :
  idx ≡ₚ idx' → group_keys idx = group_keys idx'.
Proof.
  intros Hp. unfold group_keys.
  apply (Sorted_unique Z.le); [apply Sorted_merge_sort; apply _..|].
  rewrite !merge_sort_Permutation.
  apply NoDup_Permutation; [apply NoDup_remove_dups..|].
  intros k. rewrite !elem_of_remove_dups. by rewrite Hp.
Qed.

(** The output depends on the reservation table through its group keys
    and its counts only. *)
Lemma features_counts_ext (R R' V : DataFrame) :
  group_keys (index R') = group_keys (index R) →
  (∀ k, count_reservations k R' = count_reservations k R ∧
        ∀ t, count_of_type k t R' = count_of_type k t R) →
  features R' V = features R V.
Proof.
  intros Hkeys Hcount.
  assert (out_index R' V = out_index R V) as Hidx
    by (unfold out_index; by rewrite Hkeys).
  assert (counted R' V = counted R V) as Hc.
  { unfold counted. rewrite Hidx.
    assert (∀ f g : Z → Z, (∀ k, f k = g k) →
              (λ k, Int (f k)) <$> out_index R V
              = (λ k, Int (g k)) <$> out_index R V) as Hext.
    { intros f g Hfg. apply list_fmap_ext. intros i k _. by rewrite Hfg. }
    rewrite (Hext (λ k, count_of_type k 3 R') (λ k, count_of_type k 3 R))
      by (intros; by apply Hcount).
    rewrite (Hext (λ k, count_of_type k 2 R') (λ k, count_of_type k 2 R))
      by (intros; by apply Hcount).
    rewrite (Hext (λ k, count_of_type k 1 R') (λ k, count_of_type k 1 R))
      by (intros; by apply Hcount).
    rewrite (Hext (λ k, count_reservations k R')
               (λ k, count_reservations k R))
      by (intros; by apply Hcount).
    do 4 f_equal. apply list_fmap_ext. intros i [n c] _. simpl.
    unfold enlarge. by rewrite Hkeys. }
  unfold features. by rewrite Hc, Hidx.
Qed.

(** X7: the order of the reservation records does not matter.  On a
    reservation table that holds the same records in another order,
    clean_data returns as well, with the same output. *)
Theorem X7_record_order (r v : loc) (h h1 : heap) (l : loc)
    (R' : DataFrame) :
  wf_frame (h r) = true → wf_frame R' = true → r ≠ v →
  is_Some (get_col (columns R') "reservation_type") →
  index_name R' = index_name (h r) →
  reservations R' ≡ₚ reservations (h r) →
  clean_data r v h = (inr l, h1) →
  ∃ h2, clean_data r v (<[r := R']> h) = (inr l, h2) ∧ h2 v = h1 v.
Proof.
  intros Hwf Hwf' Hrv [tcol' Hcol'] Hname Hperm Hrun.
  destruct (clean_data_returns _ _ _ _ _ Hwf Hrun)
    as (((tcol & Hcol & Hn & Hnan & Hall) & Ha & Hb) & -> & Hv & _).
  destruct (reservations_columns _ _ Hwf Hcol) as [Hi Ht].
  destruct (reservations_columns _ _ Hwf' Hcol') as [Hi' Ht'].
  assert (tcol' ≡ₚ tcol) as Htp by (by rewrite <- Ht, <- Ht', Hperm).
  assert (index R' ≡ₚ index (h r)) as Hip
    by (by rewrite <- Hi, <- Hi', Hperm).
  assert (accepts R' (h v)) as Hacc.
  { split; [|done]. exists tcol'. split; [done|]. split; [congruence|].
    split.
    - apply existsb_is_nan. rewrite Htp. by apply existsb_is_nan_inv.
    - intros t Hin. rewrite Htp. by apply Hall. }
  destruct (clean_data_accepts r v (<[r := R']> h)) as [h2 Hrun2].
  { by rewrite heap_lookup_insert. }
  { by rewrite heap_lookup_insert, heap_lookup_insert_ne. }
  exists h2. split; [done|].
  destruct (clean_data_returns _ _ _ _ _ ltac:(by rewrite heap_lookup_insert)
              Hrun2) as (_ & _ & Hv2 & _).
  rewrite Hv2, Hv, heap_lookup_insert, heap_lookup_insert_ne by done.
  apply features_counts_ext; [by apply group_keys_Permutation|].
  intros k. unfold count_reservations, count_of_type.
  split; [|intros t]; by rewrite Hperm.
Qed.

Lemma X7_record_order_witness :
  ∃ h2, clean_data 0%nat 1%nat
          (<[0%nat := orphan_reservations_reordered]>
             (example_heap orphan_reservations example_vehicles))
        = (inr 1%nat, h2)
        ∧ h2 1%nat
          = snd (example_run orphan_reservations example_vehicles) 1%nat.
Proof.
  apply (X7_record_order 0%nat 1%nat
           (example_heap orphan_reservations example_vehicles)).
  - reflexivity.
  - reflexivity.
  - vm_compute. discriminate.
  - vm_compute. eexists. reflexivity.
  - reflexivity.
  - apply (bool_decide_unpack _). vm_compute. exact I.
  - vm_compute. reflexivity.
Defined.

(** ** More failures *)

(** X8: a reservation table that is not indexed by vehicle_id makes line
    23 raise ValueError; nothing has been written to the store. *)
Theorem X8_not_indexed (r v : loc) (h : heap) (tcol : list cell) :
  get_col (columns (h r)) "reservation_type" = Some tcol →
  index_name (h r) ≠ "vehicle_id" →
  ∃ msg, clean_data r v h = (inl (ValueError msg), h).
Proof.
  intros Hcol Hname. eexists. by eapply clean_data_wrong_level.
Qed.

Lemma X8_not_indexed_witness :
  ∃ msg, clean_data 0%nat 1%nat
           (example_heap unindexed_reservations example_vehicles)
         = (inl (ValueError msg),
            example_heap unindexed_reservations example_vehicles).
Proof.
  apply (X8_not_indexed 0%nat 1%nat
           (example_heap unindexed_reservations example_vehicles)
           [Int 1; Int 2; Int 3]).
  - reflexivity.
  - vm_compute. discriminate.
Defined.

(** X9: one reservation whose type is missing is enough to make the call
    fail, also when each of the three types occurs: the type column is
    then a column of floats, the columns of get_dummies are named
    res_type_1.0 and so on, and line 27 raises KeyError for all three of
    res_type_1, res_type_2, res_type_3. *)
Theorem X9_missing_type (r v : loc) (h : heap) (tcol : list cell) :
  wf_frame (h r) = true →
  get_col (columns (h r)) "reservation_type" = Some tcol →
  index_name (h r) = "vehicle_id" →
  NaN ∈ tcol →
  ∃ missing h',
    clean_data r v h = (inl (KeyError missing), h') ∧
    (∀ n, n ∈ res_types → n ∈ missing) ∧
    h' v = after_total (h r) (h v).
Proof.
  intros Hwf Hcol Hname Hnan.
  assert (existsb is_nan tcol = true) as Hex.
  { destruct (existsb is_nan tcol) eqn:E; [done|].
    by apply existsb_is_nan_inv in E. }
  destruct (clean_data_missing_type r v h tcol Hwf Hcol Hname)
    as (missing & h' & Hrun & _ & Hmiss & Hv).
  { intros [Hc _]. congruence. }
  exists missing, h'. split; [done|]. split; [|done].
  destruct res_type_names as (N1 & N2 & N3).
  intros n Hn.
  assert (n = "res_type_1" ∨ n = "res_type_2" ∨ n = "res_type_3")
    as [->|[->| ->]] by (unfold res_types in Hn; set_solver).
  - rewrite <- N1. apply Hmiss; [set_solver|by left].
  - rewrite <- N2. apply Hmiss; [set_solver|by left].
  - rewrite <- N3. apply Hmiss; [set_solver|by left].
Qed.

Lemma X9_missing_type_witness :
  ∃ missing h',
    clean_data 0%nat 1%nat (example_heap untyped_record example_vehicles)
      = (inl (KeyError missing), h') ∧
    (∀ n, n ∈ res_types → n ∈ missing) ∧
    h' 1%nat
      = after_total (example_heap untyped_record example_vehicles 0%nat)
          (example_heap untyped_record example_vehicles 1%nat).
Proof.
  apply (X9_missing_type 0%nat 1%nat
           (example_heap untyped_record example_vehicles)
           [Int 1; Int 2; Int 3; NaN]).
  - reflexivity.
  - reflexivity.
  - reflexivity.
  - vm_compute. set_solver.
Defined.

(** * The reports and the plots *)

Lemma saved_app (t1 t2 : list libcall) :
  saved (t1 ++ t2) = saved t1 ++ saved t2.
Proof. apply omap_app. Qed.

Section script_rules.
Context (library : list libcall → libcall → option string).
Context (read_csv : string → string → error + DataFrame).

Lemma saves_ret {A} (a : A) : saves (mret a : IO A) [].
Proof.
  intros w r w' [= <- <-]. exists []. by rewrite app_nil_r.
Qed.

Lemma saves_throw {A} (e : error) (files : list string) :
  saves (throw e : IO A) files.
Proof.
  intros w r w' [= <- <-]. exists []. rewrite app_nil_r.
  split; [done|]. split; [apply prefix_nil|done].
Qed.

Lemma saves_pure_step {A} (x : exn + A) : saves (pure_step x) [].
Proof.
  intros w r w' [= <- <-]. exists []. by rewrite app_nil_r.
Qed.

Lemma saves_load (l : loc) : saves (on_store (load l)) [].
Proof.
  intros w r w' [= <- <-]. exists []. by rewrite app_nil_r.
Qed.

Lemma saves_savefig (f : string) : saves (call library (plt_savefig f)) [f].
Proof.
  intros w r w'. unfold call.
  destruct (library _ _); intros [= <- <-].
  - exists []. rewrite app_nil_r. split; [done|].
    split; [apply prefix_nil|done].
  - by exists [plt_savefig f].
Qed.

Lemma saves_call (c : libcall) : ¬ is_savefig c → saves (call library c) [].
Proof.
  intros Hc w r w'. unfold call.
  destruct (library _ _); intros [= <- <-].
  - exists []. by rewrite app_nil_r.
  - exists [c]. by destruct c.
Qed.

Lemma saves_bind {A B} (m : IO A) (k : A → IO B) (f1 f2 : list string) :
  saves m f1 → (∀ a, saves (k a) f2) → saves (m ≫= k) (f1 ++ f2).
Proof.
  intros Hm Hk w r w'. unfold mbind, IO_bind.
  destruct (m w) as [[e|a] w1] eqn:Em.
  - intros [= <- <-]. destruct (Hm _ _ _ Em) as (t & Ht & Hp & _).
    exists t. split; [done|]. split; [|done].
    by apply prefix_app_r.
  - intros Ek. destruct (Hm _ _ _ Em) as (t1 & Ht1 & _ & Hn1).
    destruct (Hk a _ _ _ Ek) as (t2 & Ht2 & Hp2 & Hn2).
    exists (t1 ++ t2). rewrite Ht2, Ht1, app_assoc, saved_app, Hn1 by done.
    split; [done|]. split; [by apply prefix_app|].
    intros Hr. by rewrite Hn2.
Qed.

(** After an exception nothing runs. *)
Lemma saves_throw_bind {A B} (e : error) (k : A → IO B) :
  saves (throw e ≫= k) [].
Proof.
  intros w r w' [= <- <-]. exists []. by rewrite app_nil_r.
Qed.

Lemma emits_ret {A} (P : libcall → Prop) (a : A) : emits P (mret a : IO A).
Proof. intros w r w' [= <- <-]. exists []. by rewrite app_nil_r. Qed.

Lemma emits_throw {A} (P : libcall → Prop) (e : error) :
  emits P (throw e : IO A).
Proof. intros w r w' [= <- <-]. exists []. by rewrite app_nil_r. Qed.

Lemma emits_pure_step {A} (P : libcall → Prop) (x : exn + A) :
  emits P (pure_step x).
Proof. intros w r w' [= <- <-]. exists []. by rewrite app_nil_r. Qed.

Lemma emits_on_store {A} (P : libcall → Prop) (m : M A) :
  emits P (on_store m).
Proof.
  intros w r w'. unfold on_store.
  destruct (m (objects w)) as [[e|a] h]; intros [= <- <-];
    exists []; by rewrite app_nil_r.
Qed.

Lemma emits_call (P : libcall → Prop) (c : libcall) :
  P c → emits P (call library c).
Proof.
  intros Hc w r w'. unfold call.
  destruct (library _ _); intros [= <- <-].
  - exists []. by rewrite app_nil_r.
  - exists [c]. split; [done|]. by constructor.
Qed.

Lemma emits_read_into (P : libcall → Prop) (l : loc) (f i : string) :
  P (pd_read_csv f i) → emits P (read_into read_csv l f i).
Proof.
  intros Hc w r w'. unfold read_into.
  destruct (read_csv f i); intros [= <- <-].
  - exists []. by rewrite app_nil_r.
  - exists [pd_read_csv f i]. split; [done|]. by constructor.
Qed.

Lemma emits_bind {A B} (P : libcall → Prop) (m : IO A) (k : A → IO B) :
  emits P m → (∀ a, emits P (k a)) → emits P (m ≫= k).
Proof.
  intros Hm Hk w r w'. unfold mbind, IO_bind.
  destruct (m w) as [[e|a] w1] eqn:Em.
  - intros [= <- <-]. by apply (Hm _ _ _ Em).
  - intros Ek. destruct (Hm _ _ _ Em) as (t1 & Ht1 & HP1).
    destruct (Hk a _ _ _ Ek) as (t2 & Ht2 & HP2).
    exists (t1 ++ t2). rewrite Ht2, Ht1, app_assoc.
    split; [done|]. by apply Forall_app.
Qed.

Lemma emits_throw_bind {A B} (P : libcall → Prop) (e : error)
    (k : A → IO B) :
  emits P (throw e ≫= k).
Proof. intros w r w' [= <- <-]. exists []. by rewrite app_nil_r. Qed.

End script_rules.

Section script_props.
Context (library : list libcall → libcall → option string).
Context (read_csv : string → string → error + DataFrame).

Lemma saves_eq {A} (m : IO A) (f f' : list string) :
  saves m f' → f' = f → saves m f.
Proof. by intros H <-. Qed.

Lemma aborts_throw_bind {A B} (e : error) (k : A → IO B) :
  aborts (throw e ≫= k).
Proof. intros w r w' [= <- <-]. by intros []. Qed.

Lemma aborts_bind {A B} (m : IO A) (k : A → IO B) :
  (∀ a, aborts (k a)) → aborts (m ≫= k).
Proof.
  intros Hk w r w'. unfold mbind, IO_bind.
  destruct (m w) as [[e|a] w1]; [intros [= <- <-]; by intros []|].
  apply Hk.
Qed.

Ltac saves_step :=
  lazymatch goal with
  | |- saves (mbind _ (throw _)) _ => apply saves_throw_bind
  | |- saves (mbind _ _) _ => eapply saves_bind; [|intros ?]
  | |- saves (mret _) _ => apply saves_ret
  | |- saves (pure_step _) _ => apply saves_pure_step
  | |- saves (on_store (load _)) _ => apply saves_load
  | |- saves (call _ (plt_savefig _)) _ => apply saves_savefig
  | |- saves (call _ _) _ => apply saves_call; by intros []
  end.

Ltac emits_step :=
  lazymatch goal with
  | |- emits _ (mbind _ (throw _)) => apply emits_throw_bind
  | |- emits _ (mbind _ _) => apply emits_bind; [|intros ?]
  | |- emits _ (mret _) => apply emits_ret
  | |- emits _ (pure_step _) => apply emits_pure_step
  | |- emits _ (on_store _) => apply emits_on_store
  | |- emits _ (read_into _ _ _ _) => apply emits_read_into; by simpl
  | |- emits _ (call _ _) => apply emits_call; by simpl
  end.

Lemma do_some_eda_saves (l : loc) : saves (do_some_eda library l) [].
Proof.
  unfold do_some_eda. eapply saves_eq; [repeat saves_step|done].
Qed.

Lemma plot_reservations_dist_saves (l : loc) :
  saves (plot_reservations_dist library l) ["total_res_distr"].
Proof.
  unfold plot_reservations_dist. eapply saves_eq; [repeat saves_step|done].
Qed.

Lemma make_box_plot_saves (l : loc) :
  saves (make_box_plot library l) ["image_res_box_plot"].
Proof.
  unfold make_box_plot. eapply saves_eq; [repeat saves_step|done].
Qed.

Lemma make_reg_plot_saves (l : loc) :
  saves (make_reg_plot library l) ["total_res_vs_price_diff"].
Proof.
  unfold make_reg_plot. eapply saves_eq; [repeat saves_step|done].
Qed.

Lemma make_violin_plot_saves (l : loc) (feature target inner : string) :
  saves (make_violin_plot library l feature target inner)
    (option_list (violin_file feature target)).
Proof.
  unfold make_violin_plot, violin_file.
  repeat case_decide; (eapply saves_eq; [repeat saves_step|done]).
Qed.

End script_props.

Section script_errors.
Context (library : list libcall → libcall → option string).

Lemma raises_ret {A} (Q : exn → Prop) (a : A) : raises Q (mret a : IO A).
Proof. by intros w r w' e [= <- <-]. Qed.

Lemma raises_call (Q : exn → Prop) (c : libcall) :
  raises Q (call library c).
Proof.
  intros w r w' e. unfold call. by destruct (library _ _); intros [= <- <-].
Qed.

Lemma raises_bind {A B} (Q : exn → Prop) (m : IO A) (k : A → IO B) :
  raises Q m → (∀ a, raises Q (k a)) → raises Q (m ≫= k).
Proof.
  intros Hm Hk w r w' e. unfold mbind, IO_bind.
  destruct (m w) as [[e'|a] w1] eqn:Em.
  - intros [= <- <-] [= ->]. by eapply Hm.
  - intros Ek Hr. by eapply Hk.
Qed.

Lemma raises_pure_bind {A B} (Q : exn → Prop) (x : exn + A)
    (k : A → IO B) :
  (∀ e, x = inl e → Q e) → (∀ a, x = inr a → raises Q (k a)) →
  raises Q (pure_step x ≫= k).
Proof.
  intros Hx Hk w r w' e. unfold mbind, IO_bind, pure_step.
  destruct x as [e'|a].
  - intros [= <- <-] [= ->]. by apply Hx.
  - intros Ek Hr. by eapply Hk.
Qed.

Lemma raises_pure_step {A} (Q : exn → Prop) (x : exn + A) :
  (∀ e, x = inl e → Q e) → raises Q (pure_step x).
Proof.
  intros Hx w r w' e. unfold pure_step.
  destruct x as [e'|a]; intros [= <- <-] [= ->]. by apply Hx.
Qed.

Lemma raises_load_bind {B} (Q : exn → Prop) (l : loc)
    (k : DataFrame → IO B) :
  (∀ V, raises Q (k V)) → raises Q (on_store (load l) ≫= k).
Proof.
  intros Hk w r w' e. unfold mbind, IO_bind, on_store, load. simpl.
  intros Ek Hr. by eapply Hk.
Qed.

Lemma raises_load_bind_dep {B} (Q : DataFrame → exn → Prop) (l : loc)
    (k : DataFrame → IO B) :
  (∀ V, raises (Q V) (k V)) →
  ∀ w w' r e, (on_store (load l) ≫= k) w = (r, w') →
              r = inl (Raised e) → Q (objects w l) e.
Proof.
  intros Hk w w' r e. unfold mbind, IO_bind, on_store, load. simpl.
  intros Ek Hr. by eapply Hk.
Qed.

Lemma getitem_inl (V : DataFrame) (n : string) (e : exn) :
  getitem V n = inl e → e = KeyError [n] ∧ get_col (columns V) n = None.
Proof.
  unfold getitem. destruct (get_col (columns V) n); [done|].
  by intros [= <-].
Qed.

Lemma getitem_inr (V : DataFrame) (n : string) (s : Series) :
  getitem V n = inr s → is_Some (get_col (columns V) n).
Proof. unfold getitem. by destruct (get_col (columns V) n). Qed.

(** The selection of the rows of a technology never fails where
    make_violin_plot makes it: the two columns have just been read. *)
Lemma technology_group_ok (V : DataFrame) (z : Z) :
  is_Some (get_col (columns V) "technology") →
  is_Some (get_col (columns V) "total_reservations") →
  ∃ s, technology_group V z = inr s.
Proof.
  intros [tech Htech] [tot Htot]. unfold technology_group, getitem.
  rewrite Htech. unfold getitem_mask. simpl columns.
  rewrite (get_col_fmap
             (select_mask (mask_eq (mkSeries (index_name V) (index V) tech) z))).
  rewrite Htot. simpl. by eexists.
Qed.

Ltac raises_step :=
  lazymatch goal with
  | |- raises _ (mbind _ (call _ _)) =>
      apply raises_bind; [apply raises_call|intros ?]
  | |- raises _ (call _ _) => apply raises_call
  | |- raises _ (mret _) => apply raises_ret
  end.

Lemma make_violin_plot_raises (l : loc) (feature target inner : string) :
  ∀ (w w' : world) (r : error + unit) (e : exn),
  make_violin_plot library l feature target inner w = (r, w') →
  r = inl (Raised e) →
  (e = KeyError [feature]
   ∧ get_col (columns (objects w l)) feature = None)
  ∨ (e = KeyError [target]
     ∧ get_col (columns (objects w l)) target = None).
Proof.
  set (Q V e :=
         (e = KeyError [feature] ∧ get_col (columns V) feature = None)
         ∨ (e = KeyError [target] ∧ get_col (columns V) target = None)).
  unfold make_violin_plot.
  apply (raises_load_bind_dep Q).
  intros V. raises_step.
  apply raises_pure_bind.
  { intros e' He. left. by apply getitem_inl. }
  intros x Hx. apply raises_pure_bind.
  { intros e' He. right. by apply getitem_inl. }
  intros y Hy. raises_step.
  apply getitem_inr in Hx, Hy.
  case_decide as Hd.
  - destruct Hd as [-> ->].
    destruct (technology_group_ok V 1 Hx Hy) as [s1 H1].
    destruct (technology_group_ok V 0 Hx Hy) as [s0 H0].
    rewrite H1, H0.
    do 2 (apply raises_pure_bind; [done|intros ? _]).
    repeat raises_step.
  - repeat (case_decide; repeat raises_step).
Qed.

End script_errors.

Section violin.
Context (library : list libcall → libcall → option string).

Lemma new_calls_app (w w' : world) (t : list libcall) :
  trace w' = trace w ++ t → new_calls w w' = t.
Proof. intros H. unfold new_calls. by rewrite H, drop_app_length. Qed.

Lemma violin_file_inj (f t f' t' name : string) :
  violin_file f t = Some name → violin_file f' t' = Some name →
  f = f' ∧ t = t'.
Proof.
  unfold violin_file.
  repeat case_decide; intros [= <-] [=]; naive_solver.
Qed.

Lemma violin_file_None (feature target : string) :
  (feature = "technology" →
   target ∉ ["total_reservations"; "res_type_1"; "res_type_2";
             "res_type_3"]) →
  (feature = "street_parked" → target ≠ "total_reservations") →
  violin_file feature target = None.
Proof.
  intros H1 H2. unfold violin_file.
  repeat case_decide; try done; exfalso; set_solver.
Qed.

(** X10: make_violin_plot saves a file for five plots only: technology
    against total_reservations, res_type_1, res_type_2 or res_type_3, and
    street_parked against total_reservations.  For every other feature and
    target it saves nothing, whatever it has drawn. *)
Theorem X10_violin_not_saved (l : loc) (feature target inner : string)
    (w w' : world) (r : error + unit) :
  (feature = "technology" →
   target ∉ ["total_reservations"; "res_type_1"; "res_type_2";
             "res_type_3"]) →
  (feature = "street_parked" → target ≠ "total_reservations") →
  make_violin_plot library l feature target inner w = (r, w') →
  saved (new_calls w w') = [].
Proof.
  intros H1 H2 Hrun.
  destruct (make_violin_plot_saves library l feature target inner _ _ _ Hrun)
    as (t & Ht & Hp & _).
  rewrite (new_calls_app _ _ _ Ht).
  rewrite violin_file_None in Hp by done.
  by apply prefix_nil_inv in Hp.
Qed.

(** X11: two plots of make_violin_plot that differ in the feature or in
    the target are not saved under one name. *)
Theorem X11_violin_files_distinct (l1 l2 : loc)
    (f1 t1 i1 f2 t2 i2 name : string)
    (w1 w1' w2 w2' : world) (r1 r2 : error + unit) :
  make_violin_plot library l1 f1 t1 i1 w1 = (r1, w1') →
  make_violin_plot library l2 f2 t2 i2 w2 = (r2, w2') →
  (f1, t1) ≠ (f2, t2) →
  name ∈ saved (new_calls w1 w1') → name ∉ saved (new_calls w2 w2').
Proof.
  intros Hrun1 Hrun2 Hne Hin1 Hin2.
  destruct (make_violin_plot_saves library _ _ _ _ _ _ _ Hrun1)
    as (tr1 & Htr1 & Hp1 & _).
  destruct (make_violin_plot_saves library _ _ _ _ _ _ _ Hrun2)
    as (tr2 & Htr2 & Hp2 & _).
  rewrite (new_calls_app _ _ _ Htr1) in Hin1.
  rewrite (new_calls_app _ _ _ Htr2) in Hin2.
  assert (∀ f t tr, saved tr `prefix_of` option_list (violin_file f t) →
            name ∈ saved tr → violin_file f t = Some name) as Hfile.
  { intros f t tr [k Hk] Hin. destruct (violin_file f t) as [n|]; simpl in Hk.
    - destruct (saved tr) as [|n' [|]]; simplify_eq/=; set_solver.
    - destruct (saved tr); simplify_eq/=. set_solver. }
  apply (Hfile f1 t1) in Hin1; [|done].
  apply (Hfile f2 t2) in Hin2; [|done].
  destruct (violin_file_inj _ _ _ _ _ Hin1 Hin2). congruence.
Qed.

(** X12: the only exceptions of its own that make_violin_plot raises are
    the KeyError of a feature column that is not there and the KeyError of
    a target column that is not there; the selection of the vehicles by
    technology never fails. *)
Theorem X12_violin_key_errors (l : loc) (feature target inner : string)
    (w w' : world) (r : error + unit) (e : exn) :
  make_violin_plot library l feature target inner w = (r, w') →
  r = inl (Raised e) →
  (e = KeyError [feature]
   ∧ get_col (columns (objects w l)) feature = None)
  ∨ (e = KeyError [target]
     ∧ get_col (columns (objects w l)) target = None).
Proof. apply make_violin_plot_raises. Qed.

End violin.

Lemma X10_violin_not_saved_witness :
  saved (new_calls cleaned_world
           (snd (make_violin_plot quiet 1%nat "street_parked" "res_type_1"
                   "box" cleaned_world)))
  = [].
Proof.
  apply (X10_violin_not_saved quiet 1%nat "street_parked" "res_type_1" "box"
           cleaned_world _
           (fst (make_violin_plot quiet 1%nat "street_parked" "res_type_1"
                   "box" cleaned_world))).
  - vm_compute. discriminate.
  - vm_compute. discriminate.
  - vm_compute. reflexivity.
Defined.

Lemma X11_violin_files_distinct_witness :
  "hourly_res_vs_technology"
  ∉ saved (new_calls cleaned_world
             (snd (make_violin_plot quiet 1%nat "technology" "res_type_2"
                     "box" cleaned_world))).
Proof.
  apply (X11_violin_files_distinct quiet 1%nat 1%nat
           "technology" "res_type_1" "box" "technology" "res_type_2" "box"
           "hourly_res_vs_technology" cleaned_world
           (snd (make_violin_plot quiet 1%nat "technology" "res_type_1"
                   "box" cleaned_world))
           cleaned_world _
           (fst (make_violin_plot quiet 1%nat "technology" "res_type_1"
                   "box" cleaned_world))
           (fst (make_violin_plot quiet 1%nat "technology" "res_type_2"
                   "box" cleaned_world))).
  - vm_compute. reflexivity.
  - vm_compute. reflexivity.
  - vm_compute. discriminate.
  - vm_compute. set_solver.
Defined.

Lemma X12_violin_key_errors_witness :
  (KeyError ["colour"] = KeyError ["colour"]
   ∧ get_col (columns (objects cleaned_world 1%nat)) "colour" = None)
  ∨ (KeyError ["colour"] = KeyError ["total_reservations"]
     ∧ get_col (columns (objects cleaned_world 1%nat)) "total_reservations"
       = None).
Proof.
  apply (X12_violin_key_errors quiet 1%nat "colour" "total_reservations"
           "box" cleaned_world
           (snd (make_violin_plot quiet 1%nat "colour" "total_reservations"
                   "box" cleaned_world))
           (fst (make_violin_plot quiet 1%nat "colour" "total_reservations"
                   "box" cleaned_world))).
  - vm_compute. reflexivity.
  - vm_compute. reflexivity.
Defined.

(** ** The reports and plots after clean_data *)

Lemma getitem_list_inl (df : DataFrame) (names : list string) (e : exn) :
  getitem_list df names = inl e →
  e = KeyError (filter (λ n, get_col (columns df) n = None) names)
  ∧ filter (λ n, get_col (columns df) n = None) names ≠ [].
Proof.
  unfold getitem_list.
  destruct (filter _ names) eqn:E; [done|]. by intros [= <-].
Qed.

Lemma features_has_added (R V : DataFrame) (n : string) :
  n ∈ ["total_reservations"; "price_difference"] →
  is_Some (get_col (columns (features R V)) n).
Proof.
  intros Hn.
  assert (n = "total_reservations" ∨ n = "price_difference") as [->| ->]
    by set_solver.
  - rewrite features_total. by eexists.
  - unfold features. simpl columns. rewrite get_col_set_col_eq. by eexists.
Qed.

Lemma features_has_kept (R V : DataFrame) (n : string) :
  n ∉ added_columns →
  get_col (columns (features R V)) n = None ↔ n ∉ col_names V.
Proof.
  intros Hn. rewrite features_kept by done.
  rewrite fmap_None. apply get_col_None.
Qed.

Ltac io_raises :=
  repeat first
    [ apply raises_call
    | apply raises_ret
    | apply raises_bind; [apply raises_call|intros ?]
    | apply raises_pure_bind; [intros ? ?; by (left + right)|intros ? _]
    | apply raises_pure_step; intros ? ?; by (left + right) ].

Section after_clean_data.
Context (library : list libcall → libcall → option string).
Context (r v : loc) (h h' : heap) (l : loc).
Context (Hwf : wf_frame (h r) = true).
Context (Hclean : clean_data r v h = (inr l, h')).

Lemma cleaned_features_1 :
  ∃ sub, getitem_list (h' l) features_1 = inr sub.
Proof.
  destruct (clean_data_returns _ _ _ _ _ Hwf Hclean)
    as ((_ & [ca Ha] & [cb Hb]) & -> & -> & _).
  unfold getitem_list, features_1. rewrite !filter_cons, filter_nil.
  destruct (features_has_added (h r) (h v) "total_reservations")
    as [c1 H1]; [set_solver|].
  destruct (features_has_added (h r) (h v) "price_difference")
    as [c2 H2]; [set_solver|].
  rewrite H1, H2.
  rewrite !features_kept by (by vm_compute; set_solver).
  rewrite Ha, Hb. simpl. by eexists.
Qed.

Lemma cleaned_features2 :
  filter (λ n, get_col (columns (h' l)) n = None) features2
  = filter (λ n, n ∉ col_names (h v)) ["num_images"; "description"].
Proof.
  destruct (clean_data_returns _ _ _ _ _ Hwf Hclean) as (_ & -> & -> & _).
  unfold features2. rewrite !filter_cons, !filter_nil.
  destruct (features_has_added (h r) (h v) "total_reservations")
    as [c1 H1]; [set_solver|].
  rewrite H1.
  pose proof (features_has_kept (h r) (h v) "num_images"
                ltac:(by vm_compute; set_solver)) as Hn.
  pose proof (features_has_kept (h r) (h v) "description"
                ltac:(by vm_compute; set_solver)) as Hd.
  repeat case_decide; try done; naive_solver.
Qed.

(** X13: on the table that clean_data has returned, do_some_eda prints
    the description and the Pearson correlations without an exception of
    its own, since clean_data has made the columns it reads there; the
    only exception of its own is then the KeyError of the rank
    correlations, for those of num_images and description that the vehicle
    table does not have. *)
Theorem X13_eda_after_clean_data (w w' : world) (res : error + unit)
    (e : exn) :
  objects w = h' →
  do_some_eda library l w = (res, w') →
  res = inl (Raised e) →
  e = KeyError (filter (λ n, n ∉ col_names (h v))
                  ["num_images"; "description"])
  ∧ ∃ sub, new_calls w w'
           = [print_describe (h' l); print_corr "pearson" sub].
Proof.
  intros Hobj. unfold do_some_eda, mbind, IO_bind, on_store, load, call,
    pure_step. simpl. rewrite Hobj.
  destruct cleaned_features_1 as [sub Hsub]. rewrite Hsub.
  destruct (library (trace w) _); [by intros [= <- <-]|]. simpl.
  destruct (library (trace w ++ _) _); [by intros [= <- <-]|]. simpl.
  destruct (getitem_list (h' l) features2) as [e'|sub2] eqn:Hsub2.
  - intros [= <- <-] [= <-].
    apply getitem_list_inl in Hsub2 as [-> _].
    split; [by rewrite cleaned_features2|].
    exists sub. unfold new_calls. simpl.
    by rewrite <- app_assoc, drop_app_length.
  - destruct (library _ _); by intros [= <- <-].
Qed.

(** X14: on the table that clean_data has returned, neither
    plot_reservations_dist nor make_reg_plot raises an exception of its
    own: the columns they read are made by clean_data. *)
Theorem X14_plots_after_clean_data (w w' : world) (res : error + unit)
    (e : exn) :
  objects w = h' →
  plot_reservations_dist library l w = (res, w')
  ∨ make_reg_plot library l w = (res, w') →
  res ≠ inl (Raised e).
Proof.
  intros Hobj Hrun Hres.
  destruct (clean_data_returns _ _ _ _ _ Hwf Hclean) as (_ & -> & Hout & _).
  set (Q (V : DataFrame) (e : exn) :=
         getitem V "total_reservations" = inl e
         ∨ getitem V "price_difference" = inl e).
  assert (Q (objects w v) e) as [He|He].
  { destruct Hrun as [Hrun|Hrun]; revert Hrun Hres; revert w' res e.
    - unfold plot_reservations_dist.
      apply (raises_load_bind_dep Q). intros V. io_raises.
    - unfold make_reg_plot.
      apply (raises_load_bind_dep Q). intros V. io_raises. }
  - apply getitem_inl in He as [_ He]. rewrite Hobj, Hout in He.
    destruct (features_has_added (h r) (h v) "total_reservations")
      ; [set_solver|congruence].
  - apply getitem_inl in He as [_ He]. rewrite Hobj, Hout in He.
    destruct (features_has_added (h r) (h v) "price_difference")
      ; [set_solver|congruence].
Qed.

(** X15: on the table that clean_data has returned, make_box_plot raises
    an exception of its own only when the vehicle table has no column
    num_images: the KeyError of that column, raised when the figure has
    been created and nothing is drawn yet. *)
Theorem X15_box_plot_after_clean_data (w w' : world) (res : error + unit)
    (e : exn) :
  objects w = h' →
  make_box_plot library l w = (res, w') →
  res = inl (Raised e) →
  e = KeyError ["num_images"] ∧ ("num_images" ∉ col_names (h v))
  ∧ new_calls w w' = [plt_subplots].
Proof.
  intros Hobj.
  destruct (clean_data_returns _ _ _ _ _ Hwf Hclean) as (_ & -> & Hout & _).
  unfold make_box_plot, mbind, IO_bind, on_store, load, call, pure_step.
  simpl. rewrite Hobj, Hout.
  destruct (library (trace w) _); [by intros [= <- <-]|]. simpl.
  destruct (features_has_added (h r) (h v) "total_reservations")
    as [c Hc]; [set_solver|].
  unfold getitem. rewrite Hc.
  destruct (get_col (columns (features (h r) (h v))) "num_images")
    as [c'|] eqn:Hn.
  - repeat (destruct (library _ _); [by intros [= <- <-]|]; simpl).
    by intros [= <- <-].
  - intros [= <- <-] [= <-]. split; [done|].
    split; [by apply features_has_kept in Hn; [|by vm_compute; set_solver]|].
    unfold new_calls. simpl. by rewrite drop_app_length.
Qed.

End after_clean_data.

Lemma X13_eda_after_clean_data_witness :
  let h := example_heap example_reservations_C unpriced_vehicles in
  let w := mkWorld (snd (example_run example_reservations_C
                           unpriced_vehicles)) [] in
  KeyError ["description"]
  = KeyError (filter (λ n, n ∉ col_names (h 1%nat))
                ["num_images"; "description"])
  ∧ ∃ sub, new_calls w (snd (do_some_eda quiet 1%nat w))
           = [print_describe (objects w 1%nat); print_corr "pearson" sub].
Proof.
  apply (X13_eda_after_clean_data quiet 0%nat 1%nat
           (example_heap example_reservations_C unpriced_vehicles)
           (snd (example_run example_reservations_C unpriced_vehicles))
           1%nat eq_refl)
    with (res := fst (do_some_eda quiet 1%nat
                        (mkWorld (snd (example_run example_reservations_C
                                         unpriced_vehicles)) []))).
  - vm_compute. reflexivity.
  - reflexivity.
  - vm_compute. reflexivity.
  - vm_compute. reflexivity.
Defined.

Lemma X14_plots_after_clean_data_witness :
  fst (plot_reservations_dist quiet 1%nat cleaned_world)
  ≠ inl (Raised (KeyError ["total_reservations"])).
Proof.
  apply (X14_plots_after_clean_data quiet 0%nat 1%nat
           (example_heap orphan_reservations full_vehicles)
           (snd (example_run orphan_reservations full_vehicles))
           1%nat eq_refl)
    with (w := cleaned_world)
         (w' := snd (plot_reservations_dist quiet 1%nat cleaned_world)).
  - vm_compute. reflexivity.
  - reflexivity.
  - left. vm_compute. reflexivity.
Defined.

Lemma X15_box_plot_after_clean_data_witness :
  let h := example_heap example_reservations_C example_vehicles in
  let w := mkWorld (snd (example_run example_reservations_C
                           example_vehicles)) [] in
  KeyError ["num_images"] = KeyError ["num_images"]
  ∧ ("num_images" ∉ col_names (h 1%nat))
  ∧ new_calls w (snd (make_box_plot quiet 1%nat w)) = [plt_subplots].
Proof.
  apply (X15_box_plot_after_clean_data quiet 0%nat 1%nat
           (example_heap example_reservations_C example_vehicles)
           (snd (example_run example_reservations_C example_vehicles))
           1%nat eq_refl)
    with (res := fst (make_box_plot quiet 1%nat
                        (mkWorld (snd (example_run example_reservations_C
                                         example_vehicles)) []))).
  - vm_compute. reflexivity.
  - reflexivity.
  - vm_compute. reflexivity.
  - vm_compute. reflexivity.
Defined.

(** ** The script as a whole *)

Section main_rules.
Context (library : list libcall → libcall → option string).
Context (read_csv : string → string → error + DataFrame).

Lemma saves_on_store {A} (m : M A) : saves (on_store m) [].
Proof.
  intros w r w'. unfold on_store.
  destruct (m (objects w)) as [[e|a] h0]; intros [= <- <-];
    exists []; by rewrite app_nil_r.
Qed.

Lemma saves_read_into (l : loc) (f i : string) :
  saves (read_into read_csv l f i) [].
Proof.
  intros w r w'. unfold read_into.
  destruct (read_csv f i); intros [= <- <-].
  - exists []. by rewrite app_nil_r.
  - by exists [pd_read_csv f i].
Qed.

Lemma main_saves :
  saves (main library read_csv) ["total_res_distr"; "image_res_box_plot"].
Proof.
  unfold main.
  eapply saves_eq.
  { eapply saves_bind; [apply saves_read_into|intros ?].
    eapply saves_bind; [apply saves_read_into|intros ?].
    eapply saves_bind; [apply saves_on_store|intros ?].
    eapply saves_bind; [apply do_some_eda_saves|intros ?].
    eapply saves_bind; [apply plot_reservations_dist_saves|intros ?].
    eapply saves_bind; [apply make_box_plot_saves|intros ?].
    apply saves_throw_bind. }
  done.
Qed.

Lemma main_aborts : aborts (main library read_csv).
Proof. unfold main. do 6 (apply aborts_bind; intros ?). apply aborts_throw_bind. Qed.

Ltac io_emits :=
  repeat first
    [ apply emits_throw_bind
    | apply emits_bind; [|intros ?]
    | apply emits_ret
    | apply emits_pure_step
    | apply emits_on_store
    | apply emits_read_into; simpl; tauto
    | apply emits_call; simpl; tauto ].

Lemma main_emits :
  emits (λ c, ¬ draws_reg_or_violin c) (main library read_csv).
Proof.
  unfold main, do_some_eda, plot_reservations_dist, make_box_plot.
  io_emits.
Qed.

(** X16: run as a script, the module never completes: whatever the two
    files hold and however the libraries behave, the run ends with an
    exception (a run that gets as far as the call of make_joint_plot stops
    there, since no definition of the module binds that name).  No
    regression plot and no violin plot is ever drawn, and no file is saved
    besides total_res_distr and image_res_box_plot, in this order. *)
Theorem X16_main_never_completes (w w' : world) (r : error + unit) :
  main library read_csv w = (r, w') →
  ¬ is_normal r ∧
  Forall (λ c, ¬ draws_reg_or_violin c) (new_calls w w') ∧
  saved (new_calls w w') `prefix_of` ["total_res_distr"; "image_res_box_plot"].
Proof.
  intros Hrun. split; [by eapply main_aborts|].
  destruct (main_emits _ _ _ Hrun) as (t & Ht & HP).
  destruct (main_saves _ _ _ Hrun) as (t' & Ht' & Hp & _).
  rewrite (new_calls_app _ _ _ Ht). split; [done|].
  by rewrite <- (new_calls_app _ _ _ Ht), (new_calls_app _ _ _ Ht').
Qed.

End main_rules.

Lemma X16_main_never_completes_witness :
  let w := mkWorld (λ _, empty_frame) [] in
  ¬ is_normal (fst (main quiet example_files w)) ∧
  Forall (λ c, ¬ draws_reg_or_violin c)
    (new_calls w (snd (main quiet example_files w))) ∧
  saved (new_calls w (snd (main quiet example_files w)))
    `prefix_of` ["total_res_distr"; "image_res_box_plot"].
Proof.
  apply (X16_main_never_completes quiet example_files
           (mkWorld (λ _, empty_frame) [])).
  vm_compute. reflexivity.
Defined.

Section cooperative.
Context (library : list libcall → libcall → option string).
Context (Hcoop : cooperative library).

Lemma ok_ret {A} (w : world) (a : A) : runs_ok w (mret a : IO A) [].
Proof. exists a, []. by rewrite app_nil_r; destruct w. Qed.

Lemma ok_call (w : world) (c : libcall) :
  runs_ok w (call library c) (saved [c]).
Proof. exists (), [c]. unfold call. by rewrite Hcoop. Qed.

Lemma ok_call_bind {B} (w : world) (c : libcall) (k : unit → IO B)
    (files : list string) :
  runs_ok (mkWorld (objects w) (trace w ++ [c])) (k ()) files →
  runs_ok w (call library c ≫= k) (saved [c] ++ files).
Proof.
  intros (b & t & Hk & Hs). exists b, ([c] ++ t).
  unfold mbind, IO_bind, call. rewrite Hcoop, Hk.
  split; [simpl; by rewrite <- app_assoc|]. by rewrite saved_app, Hs.
Qed.

Lemma ok_pure_bind {A B} (w : world) (x : exn + A) (a : A) (k : A → IO B)
    (files : list string) :
  x = inr a → runs_ok w (k a) files → runs_ok w (pure_step x ≫= k) files.
Proof. intros -> Hk. exact Hk. Qed.

Lemma ok_load_bind {B} (w : world) (l : loc) (k : DataFrame → IO B)
    (files : list string) :
  runs_ok w (k (objects w l)) files →
  runs_ok w (on_store (load l) ≫= k) files.
Proof.
  intros (b & t & Hk & Hs). exists b, t.
  unfold mbind, IO_bind, on_store, load. simpl.
  destruct w as [o tr]. simpl in *. by rewrite Hk.
Qed.

(** Two runs in sequence. *)
Lemma ok_seq {A B} (w : world) (m : IO A) (k : A → IO B)
    (f1 f2 : list string) :
  runs_ok w m f1 →
  (∀ a t, runs_ok (mkWorld (objects w) (trace w ++ t)) (k a) f2) →
  runs_ok w (m ≫= k) (f1 ++ f2).
Proof.
  intros (a & t1 & Hm & Hs1) Hk.
  destruct (Hk a t1) as (b & t2 & Hk' & Hs2). simpl in Hk'.
  exists b, (t1 ++ t2). unfold mbind, IO_bind. rewrite Hm, Hk'.
  rewrite <- app_assoc. split; [done|]. by rewrite saved_app, Hs1, Hs2.
Qed.

Ltac io_ok :=
  repeat first
    [ apply ok_ret
    | eapply ok_pure_bind; [eassumption|]
    | eapply ok_call_bind
    | apply ok_call ].

Lemma runs_ok_eq {A} (w : world) (m : IO A) (f f' : list string) :
  runs_ok w m f' → f' = f → runs_ok w m f.
Proof. by intros H <-. Qed.

Lemma do_some_eda_ok (w : world) (l : loc) (s1 s2 : DataFrame) :
  getitem_list (objects w l) features_1 = inr s1 →
  getitem_list (objects w l) features2 = inr s2 →
  runs_ok w (do_some_eda library l) [].
Proof.
  intros H1 H2. unfold do_some_eda. apply ok_load_bind.
  eapply runs_ok_eq; [io_ok|done].
Qed.

Lemma plot_reservations_dist_ok (w : world) (l : loc) (s : Series) :
  getitem (objects w l) "total_reservations" = inr s →
  runs_ok w (plot_reservations_dist library l) ["total_res_distr"].
Proof.
  intros H1. unfold plot_reservations_dist. apply ok_load_bind.
  eapply runs_ok_eq; [io_ok|done].
Qed.

Lemma make_box_plot_ok (w : world) (l : loc) (s1 s2 : Series) :
  getitem (objects w l) "num_images" = inr s1 →
  getitem (objects w l) "total_reservations" = inr s2 →
  runs_ok w (make_box_plot library l) ["image_res_box_plot"].
Proof.
  intros H1 H2. unfold make_box_plot. apply ok_load_bind.
  eapply runs_ok_eq; [io_ok|done].
Qed.

End cooperative.

Section happy_path.
Context (library : list libcall → libcall → option string).
Context (read_csv : string → string → error + DataFrame).

(** X17: when both files are read, the reservation table is accepted by
    clean_data, the vehicle table has the columns num_images and
    description, and no library call raises, the script runs up to its
    call of make_joint_plot and ends there with NameError.  It has then
    built the feature table in the vehicle object and saved the two files
    total_res_distr and image_res_box_plot, and no other file. *)
Theorem X17_main_on_good_data (w : world) (R V : DataFrame) :
  cooperative library →
  read_csv "vehicles_(6).csv" "vehicle_id" = inr V →
  read_csv "reservations_(5).csv" "vehicle_id" = inr R →
  wf_frame R = true → accepts R V →
  "num_images" ∈ col_names V → "description" ∈ col_names V →
  ∃ w', main library read_csv w = (inl (NameError "make_joint_plot"), w') ∧
        objects w' 1%nat = features R V ∧ objects w' 0%nat = R ∧
        saved (new_calls w w') = ["total_res_distr"; "image_res_box_plot"].
Proof.
  intros Hcoop HV HR Hwf Hacc Himg Hdesc.
  set (h2 := <[(0%nat : loc) := R]> (<[(1%nat : loc) := V]> (objects w))).
  assert (h2 0%nat = R) as H0 by done.
  assert (h2 1%nat = V) as H1 by done.
  destruct (clean_data_accepts 0%nat 1%nat h2) as [h3 Hclean];
    [by rewrite H0|by rewrite H0, H1|].
  destruct (clean_data_returns _ _ _ _ _ ltac:(by rewrite H0) Hclean)
    as (_ & _ & Hout & Hframe).
  rewrite H0, H1 in Hout.
  set (t2 := trace w ++ [pd_read_csv "vehicles_(6).csv" "vehicle_id"]
             ++ [pd_read_csv "reservations_(5).csv" "vehicle_id"]).
  set (w3 := mkWorld h3 t2).
  (* the columns that the reports and the plots read *)
  destruct (cleaned_features_1 0%nat 1%nat h2 h3 1%nat
              ltac:(by rewrite H0) Hclean) as [s1 Hs1].
  assert (∃ s2, getitem_list (h3 1%nat) features2 = inr s2) as [s2 Hs2].
  { unfold getitem_list.
    rewrite (cleaned_features2 0%nat 1%nat h2 h3 1%nat
               ltac:(by rewrite H0) Hclean), H1.
    rewrite !filter_cons, filter_nil.
    rewrite !decide_False by (intros Hc; by apply Hc). by eexists. }
  assert (∃ s, getitem (h3 1%nat) "total_reservations" = inr s) as [st Hst].
  { unfold getitem. rewrite Hout, features_total. by eexists. }
  assert (∃ s, getitem (h3 1%nat) "num_images" = inr s) as [si Hsi].
  { unfold getitem. rewrite Hout.
    destruct (get_col (columns (features R V)) "num_images") eqn:E;
      [by eexists|].
    apply features_has_kept in E; [done|by vm_compute; set_solver]. }
  destruct (do_some_eda_ok library Hcoop w3 1%nat s1 s2 Hs1 Hs2)
    as ([] & ta & Ha & Hsa).
  set (w4 := mkWorld (objects w3) (trace w3 ++ ta)) in *.
  destruct (plot_reservations_dist_ok library Hcoop w4 1%nat st Hst)
    as ([] & tb & Hb & Hsb).
  set (w5 := mkWorld (objects w4) (trace w4 ++ tb)) in *.
  destruct (make_box_plot_ok library Hcoop w5 1%nat si st Hsi Hst)
    as ([] & tc & Hc & Hsc).
  set (w6 := mkWorld (objects w5) (trace w5 ++ tc)) in *.
  exists w6. split; [|split; [done|split]].
  - unfold main, mbind, IO_bind, read_into, on_store, throw.
    rewrite HV, HR. simpl objects. unfold h2 in Hclean. rewrite Hclean.
    simpl trace. rewrite <- app_assoc. simpl app.
    unfold w4, w3, t2 in Ha. cbn [objects trace app] in Ha. rewrite Ha.
    unfold w5, w4, w3, t2 in Hb. cbn [objects trace app] in Hb. rewrite Hb.
    unfold w6, w5, w4, w3, t2 in Hc. cbn [objects trace app] in Hc.
    rewrite Hc. unfold w6, w5, w4, w3, t2. by cbn [objects trace app].
  - simpl. by rewrite Hframe.
  - unfold new_calls. simpl. unfold t2.
    rewrite <- !app_assoc, drop_app_length.
    by rewrite !saved_app, Hsa, Hsb, Hsc.
Qed.

End happy_path.

Lemma X17_main_on_good_data_witness :
  ∃ w', main quiet example_files (mkWorld (λ _, empty_frame) [])
        = (inl (NameError "make_joint_plot"), w') ∧
        objects w' 1%nat = features orphan_reservations full_vehicles ∧
        objects w' 0%nat = orphan_reservations ∧
        saved (new_calls (mkWorld (λ _, empty_frame) []) w')
        = ["total_res_distr"; "image_res_box_plot"].
Proof.
  apply (X17_main_on_good_data quiet example_files).
  - intros t c. reflexivity.
  - reflexivity.
  - reflexivity.
  - reflexivity.
  - split; [|split; by eexists].
    exists [Int 1; Int 2; Int 2; Int 3]. repeat split.
    intros t Ht. vm_compute in Ht. set_solver.
  - vm_compute. set_solver.
  - vm_compute. set_solver.
Defined.

(** ** A vehicle table without rows *)



